(** * Thrift savings management (app.py)

    A shallow embedding of the rule engine of [app.py]: the interest
    calculation of [ThriftManager.calculate_interest], the whole-document
    store ([load_data], [save_data], [add_member], [add_transaction],
    [search_members]), the add-member form handler and the per-member
    summary of [display_summary_panel].

    Python values are modelled as the code has them:
    - a [float] is an IEEE 754 binary64 number (Rocq's primitive floats);
      the built-ins [round(x, 2)], [repr] and the int-to-float conversion
      are written out on the exact binary value;
    - a number read from JSON is an [int] or a [float];
    - a [str] is a string of ASCII characters;
    - the member mapping is an insertion-ordered association list, because
      [search_members] returns its matches in the mapping's iteration order;
    - member and transaction dictionaries are records whose fields are
      optional (a key may be missing, and the code reads it with [.get]). *)

From Stdlib Require Import ZArith List String Ascii Bool Lia.
From Stdlib Require Import Floats DecimalString.
Import ListNotations.

Set Warnings "-inexact-float".

Open Scope list_scope.
Open Scope string_scope.
Open Scope Z_scope.

(** ** Exceptions and results *)

Inductive exn := OverflowError | JSONDecodeError.

Inductive outcome (A : Type) :=
| Returned (a : A)
| Raised (e : exn).
Arguments Returned {A} a.
Arguments Raised {A} e.

Definition bind {A B : Type} (c : outcome A) (k : A -> outcome B) : outcome B :=
  match c with
  | Returned a => k a
  | Raised e => Raised e
  end.

Notation "x <- c ;; k" := (bind c (fun x => k))
  (at level 61, c at next level, right associativity).

(** [d.get(key, default)] on an optional field. *)
Definition get_or {A : Type} (field : option A) (default : A) : A :=
  match field with
  | Some a => a
  | None => default
  end.

(** ** Python's float built-ins on binary64 *)

Module PyFloat.

(** The double nearest to [(-1)^s * c * 10^j] (ties to even): how a decimal
    literal or a decimal string is read. The quotient of the two integers
    is rounded once, by [SFdiv]. *)
Definition decimal_to_float (s : bool) (c : Z) (j : Z) : float :=
  match c with
  | Zpos p =>
      let num := if 0 <=? j then Zpos p * 10 ^ j else Zpos p in
      let den := if 0 <=? j then 1 else 10 ^ (- j) in
      SF2Prim (SFdiv prec emax (S754_finite s (Z.to_pos num) 0)
                                (S754_finite false (Z.to_pos den) 0))
  | _ => if s then neg_zero else zero
  end.

(** Conversion of an [int] operand in mixed arithmetic: correctly rounded,
    and [OverflowError] when the integer is beyond the double range. *)
Definition float_of_int (z : Z) : outcome float :=
  match binary_normalize prec emax z 0 false with
  | S754_infinity _ => Raised OverflowError
  | sf => Returned (SF2Prim sf)
  end.

(** The integer nearest to [n / d] for [d > 0], ties to even. *)
Definition round_half_even (n d : Z) : Z :=
  let q := n / d in
  match 2 * (n mod d) ?= d with
  | Lt => q
  | Gt => q + 1
  | Eq => if Z.even q then q else q + 1
  end.

(** [round(x, 2)]: the exact value of [x] is rounded to the nearest
    multiple of 1/100 (ties to even) and that decimal is read back as a
    double; zeros, infinities and NaN round to themselves. *)
Definition round2 (x : float) : float :=
  match Prim2SF x with
  | S754_finite s m e =>
      let hundredths :=
        if 0 <=? e then Zpos m * 2 ^ e * 100
        else round_half_even (Zpos m * 100) (2 ^ (- e)) in
      decimal_to_float s hundredths (-2)
  | _ => x
  end.

(** The decimal point [k] of a positive rational: [10^(k-1) <= num/den < 10^k]. *)
Fixpoint decimal_point_up (fuel : nat) (num den k : Z) : Z :=
  match fuel with
  | O => k
  | S fuel' =>
      if num <? den then k else decimal_point_up fuel' num (den * 10) (k + 1)
  end.

Fixpoint decimal_point_down (fuel : nat) (num den k : Z) : Z :=
  match fuel with
  | O => k
  | S fuel' =>
      if den <=? num * 10 then k
      else decimal_point_down fuel' (num * 10) den (k - 1)
  end.

Definition decimal_point (num den : Z) : Z :=
  if den <=? num then decimal_point_up 400 num den 0
  else decimal_point_down 400 num den 0.

Definition reads_back (x : float) (c j : Z) : bool :=
  (0 <? c) && PrimFloat.eqb (decimal_to_float false c j) x.

(** The [n]-digit decimal [c * 10^j] nearest to [num/den] that reads back
    as [x], if there is one. *)
Definition candidate (x : float) (num den k n : Z) : option (Z * Z) :=
  let j := k - n in
  let num' := if 0 <=? j then num else num * 10 ^ (- j) in
  let den' := if 0 <=? j then den * 10 ^ j else den in
  let lo := num' / den' in
  let r := num' mod den' in
  let hi := lo + 1 in
  let hi_first :=
    match 2 * r ?= den' with
    | Lt => false
    | Gt => true
    | Eq => Z.odd lo
    end in
  if r =? 0 then (if reads_back x lo j then Some (lo, j) else None)
  else if hi_first then
    if reads_back x hi j then Some (hi, j)
    else if reads_back x lo j then Some (lo, j) else None
  else
    if reads_back x lo j then Some (lo, j)
    else if reads_back x hi j then Some (hi, j) else None.

(** The shortest decimal that reads back as [x]: 17 digits always do. *)
Fixpoint shortest (fuel : nat) (x : float) (num den k n : Z) : Z * Z :=
  match fuel with
  | O => (0, 0)
  | S fuel' =>
      match candidate x num den k n with
      | Some cj => cj
      | None => shortest fuel' x num den k (n + 1)
      end
  end.

Fixpoint strip_zeros (fuel : nat) (c j : Z) : Z * Z :=
  match fuel with
  | O => (c, j)
  | S fuel' =>
      if (c mod 10 =? 0) && negb (c =? 0) then strip_zeros fuel' (c / 10) (j + 1)
      else (c, j)
  end.

Definition digits_of (c : Z) : string :=
  NilZero.string_of_uint (N.to_uint (Z.to_N c)).

Fixpoint zeros (n : nat) : string :=
  match n with
  | O => EmptyString
  | S n' => String "0" (zeros n')
  end.

(** Layout of [repr]: digits [ds] with the decimal point after [decpt] of
    them; exponent notation when [decpt <= -4] or [decpt > 16]. *)
Definition repr_finite (s : bool) (ds : string) (decpt : Z) : string :=
  let len := Z.of_nat (String.length ds) in
  let sign := if s then "-" else "" in
  let body :=
    if (decpt <=? -4) || (16 <? decpt) then
      let e := decpt - 1 in
      let frac :=
        if 1 <? len then String "." (substring 1 (String.length ds - 1) ds)
        else "" in
      let esign := if e <? 0 then "-" else "+" in
      let epad := if Z.abs e <? 10 then "0" else "" in
      substring 0 1 ds ++ frac ++ "e" ++ esign ++ epad ++ digits_of (Z.abs e)
    else if decpt <=? 0 then "0." ++ zeros (Z.to_nat (- decpt)) ++ ds
    else if len <=? decpt then ds ++ zeros (Z.to_nat (decpt - len)) ++ ".0"
    else substring 0 (Z.to_nat decpt) ds ++ "." ++
         substring (Z.to_nat decpt) (String.length ds - Z.to_nat decpt) ds in
  sign ++ body.

(** [repr(x)], which is also [str(x)] and what [f"{x}"] inserts. *)
Definition float_repr (x : float) : string :=
  match Prim2SF x with
  | S754_nan => "nan"
  | S754_infinity s => if s then "-inf" else "inf"
  | S754_zero s => if s then "-0.0" else "0.0"
  | S754_finite s m e =>
      let num := if 0 <=? e then Zpos m * 2 ^ e else Zpos m in
      let den := if 0 <=? e then 1 else 2 ^ (- e) in
      let k := decimal_point num den in
      let '(c, j) := shortest 17 (abs x) num den k 1 in
      let '(c', j') := strip_zeros 20 c j in
      let ds := digits_of c' in
      repr_finite s ds (Z.of_nat (String.length ds) + j')
  end.

(** [z == x] for an [int] and a [float]: the exact values are compared. *)
Definition int_eq_float (z : Z) (x : float) : bool :=
  match Prim2SF x with
  | S754_zero _ => z =? 0
  | S754_finite s m e =>
      let v := if s then Zneg m else Zpos m in
      if 0 <=? e then z =? v * 2 ^ e else z * 2 ^ (- e) =? v
  | _ => false
  end.

End PyFloat.

(** ** Python's string built-ins on ASCII text *)

Module PyStr.

Definition lower_char (c : ascii) : ascii :=
  let n := nat_of_ascii c in
  if (Nat.leb 65 n && Nat.leb n 90)%bool then ascii_of_nat (n + 32) else c.

(** [s.lower()] *)
Fixpoint lower (s : string) : string :=
  match s with
  | EmptyString => EmptyString
  | String c rest => String (lower_char c) (lower rest)
  end.

(** [sub in s] *)
Fixpoint contains (sub s : string) : bool :=
  if prefix sub s then true
  else match s with
       | EmptyString => false
       | String _ rest => contains sub rest
       end.

(** [str(z)] for an [int] *)
Definition str_int (z : Z) : string := NilZero.string_of_int (Z.to_int z).

(** A string is true when it is not empty. *)
Definition truthy (s : string) : bool :=
  match s with
  | EmptyString => false
  | String _ _ => true
  end.

End PyStr.

(** ** Numbers *)

Inductive number :=
| PyInt (z : Z)
| PyFloat (x : float).

(** [a + b] *)
Definition py_add (a b : number) : outcome number :=
  match a, b with
  | PyInt x, PyInt y => Returned (PyInt (x + y))
  | PyInt x, PyFloat g =>
      f <- PyFloat.float_of_int x ;; Returned (PyFloat (f + g)%float)
  | PyFloat f, PyInt y =>
      g <- PyFloat.float_of_int y ;; Returned (PyFloat (f + g)%float)
  | PyFloat f, PyFloat g => Returned (PyFloat (f + g)%float)
  end.

(** [sum(items)]: the items are added from left to right, starting from the
    integer 0. (An interpreter that compensates the rounding of float sums
    agrees with this wherever the partial sums are exact.) *)
Definition py_sum (items : list number) : outcome number :=
  fold_left (fun acc item => a <- acc ;; py_add a item) items (Returned (PyInt 0)).

(** [a == b] *)
Definition py_eq (a b : number) : bool :=
  match a, b with
  | PyInt x, PyInt y => x =? y
  | PyInt x, PyFloat g => PyFloat.int_eq_float x g
  | PyFloat f, PyInt y => PyFloat.int_eq_float y f
  | PyFloat f, PyFloat g => PrimFloat.eqb f g
  end.

(** [str(n)] *)
Definition str_number (n : number) : string :=
  match n with
  | PyInt z => PyStr.str_int z
  | PyFloat x => PyFloat.float_repr x
  end.

(** ** Data model *)

(** The dictionary returned by [calculate_interest]. *)
Module Interest.
Record t := {
  InterestRate : float;
  InterestAmount : float;
  TransactionType : string;
  InterestBand : string
}.
End Interest.

(** An element of [ThriftRecords]. [ReceiptNumber] may be missing, [None]
    or a string. *)
Module Transaction.
Record t := {
  Date : option string;
  Recovery : option number;
  ReceiptNumber : option (option string);
  Paid : option number;
  Balance : option number;
  DaysHeld : option Z;
  InterestRate : option number;
  InterestAmount : option number;
  TransactionType : option string;
  InterestBand : option string
}.
End Transaction.

Module Opening.
Record t := {
  Date : option string;
  ThriftBalance : option number
}.
Definition empty : t := {| Date := None; ThriftBalance := None |}.
End Opening.

(** [MSNo] is a string in the form handler and may be a number in a document. *)
Inductive scalar :=
| SStr (s : string)
| SNum (n : number).

(** [str(v)] *)
Definition str_scalar (v : scalar) : string :=
  match v with
  | SStr s => s
  | SNum n => str_number n
  end.

(** A member dictionary. The key [MemberID] is absent from the stored record
    and added by [{**member_data, "MemberID": member_id}]. *)
Module Member.
Record t := {
  MemberID : option string;
  MemberName : option string;
  MSNo : option scalar;
  ShareCapital : option number;
  OpeningBalance : option Opening.t;
  ThriftRecords : option (list Transaction.t)
}.

(** The empty dictionary. *)
Definition empty : t :=
  {| MemberID := None; MemberName := None; MSNo := None; ShareCapital := None;
     OpeningBalance := None; ThriftRecords := None |}.

Definition with_MemberID (member_id : string) (m : t) : t :=
  {| MemberID := Some member_id;
     MemberName := MemberName m;
     MSNo := MSNo m;
     ShareCapital := ShareCapital m;
     OpeningBalance := OpeningBalance m;
     ThriftRecords := ThriftRecords m |}.

Definition with_ThriftRecords (records : list Transaction.t) (m : t) : t :=
  {| MemberID := MemberID m;
     MemberName := MemberName m;
     MSNo := MSNo m;
     ShareCapital := ShareCapital m;
     OpeningBalance := OpeningBalance m;
     ThriftRecords := Some records |}.
End Member.

(** ** Dictionaries keyed by strings, in insertion order *)

Section Dict.
Context {V : Type}.

Definition dict := list (string * V).

(** [d.get(k)] *)
Fixpoint dict_get (k : string) (d : dict) : option V :=
  match d with
  | [] => None
  | (k', v) :: rest => if String.eqb k' k then Some v else dict_get k rest
  end.

(** [k in d] *)
Definition dict_contains (k : string) (d : dict) : bool :=
  match dict_get k d with
  | Some _ => true
  | None => false
  end.

(** [d[k] = v]: an existing key keeps its position, a new key goes last. *)
Fixpoint dict_set (k : string) (v : V) (d : dict) : dict :=
  match d with
  | [] => [(k, v)]
  | (k', v') :: rest =>
      if String.eqb k' k then (k', v) :: rest else (k', v') :: dict_set k v rest
  end.
End Dict.
Arguments dict V : clear implicits.

Definition store := dict Member.t.

(** ** The backing document *)

(** A JSON value below the top level of a document that is not a mapping. *)
#[local] Set Warnings "-register-all".
Inductive json :=
| JNull
| JBool (b : bool)
| JNumber (n : number)
| JString (s : string)
| JArray (items : list json)
| JObject (fields : list (string * json)).

(** What [json.load] returns: a [dict] of members, or a value of another type. *)
Inductive parsed :=
| PDict (d : store)
| PList (items : list json)
| PString (s : string)
| PNumber (n : number)
| PBool (b : bool)
| PNone.

(** [isinstance(data, dict)] *)
Definition is_dict (v : parsed) : bool :=
  match v with
  | PDict _ => true
  | _ => false
  end.

(** The file at [data_file]: missing, not JSON, or a JSON document. *)
Inductive document :=
| NoFile
| NotJSON
| Document (v : parsed).

(** ** ThriftManager *)

Record ThriftManager := {
  data_file : document;
  data : store
}.

Definition load_data (file : document) : outcome store :=
  match file with
  | Document v =>
      match v with
      | PDict d => Returned d
      | _ => Returned []
      end
  | NotJSON => Raised JSONDecodeError
  | NoFile => Returned []
  end.

(** [ThriftManager(data_file)] *)
Definition init (file : document) : outcome ThriftManager :=
  d <- load_data file ;; Returned {| data_file := file; data := d |}.

Definition save_data (self : ThriftManager) : ThriftManager :=
  {| data_file := Document (PDict (data self)); data := data self |}.

(** The f-string [f"{x}%"] for a float [x]. *)
Definition f_percent (x : float) : string := PyFloat.float_repr x ++ "%".

Definition calculate_interest (recovery_amount : float) (days_held : Z)
    (has_receipt : bool) : outcome Interest.t :=
  let '(interest_rate, transaction_type) :=
    if (100000 <=? recovery_amount)%float then
      (10.8%float, if has_receipt then "Bulk" else "Monthly")
    else
      (8.5%float, if has_receipt then "Bulk" else "Monthly") in
  days <- PyFloat.float_of_int days_held ;;
  let interest_amount := (recovery_amount * interest_rate * days / 36500)%float in
  Returned {| Interest.InterestRate := interest_rate;
              Interest.InterestAmount := PyFloat.round2 interest_amount;
              Interest.TransactionType := transaction_type;
              Interest.InterestBand := f_percent interest_rate |}.

Definition add_member (self : ThriftManager) (member_id : string)
    (member_data : Member.t) : ThriftManager :=
  save_data {| data_file := data_file self;
               data := dict_set member_id member_data (data self) |}.

Definition get_member (self : ThriftManager) (member_id : string) : Member.t :=
  get_or (dict_get member_id (data self)) Member.empty.

Definition update_member (self : ThriftManager) (member_id : string)
    (member_data : Member.t) : ThriftManager :=
  save_data {| data_file := data_file self;
               data := dict_set member_id member_data (data self) |}.

(** The condition of the loop body of [search_members]. *)
Definition search_match (search_term member_id : string) (member_data : Member.t) : bool :=
  PyStr.contains search_term (PyStr.lower member_id)
  || PyStr.contains search_term
       (PyStr.lower (get_or (Member.MemberName member_data) ""))
  || PyStr.contains search_term
       (PyStr.lower (str_scalar (get_or (Member.MSNo member_data) (SStr "")))).

Definition search_members (self : ThriftManager) (search_term : string) : list Member.t :=
  let search_term := PyStr.lower search_term in
  fold_left
    (fun results item =>
       let '(member_id, member_data) := item in
       if search_match search_term member_id member_data
       then (results ++ [Member.with_MemberID member_id member_data])%list
       else results)
    (data self) [].

Definition add_transaction (self : ThriftManager) (member_id : string)
    (transaction : Transaction.t) : ThriftManager * bool :=
  match dict_get member_id (data self) with
  | None => (self, false)
  | Some member_data =>
      let member_data :=
        match Member.ThriftRecords member_data with
        | None => Member.with_ThriftRecords [] member_data
        | Some _ => member_data
        end in
      let member_data :=
        Member.with_ThriftRecords
          (get_or (Member.ThriftRecords member_data) [] ++ [transaction])%list
          member_data in
      (save_data {| data_file := data_file self;
                    data := dict_set member_id member_data (data self) |}, true)
  end.

(** ** Sample data and page handlers *)

Definition sample_member : Member.t :=
  {| Member.MemberID := None;
     Member.MemberName := Some "Ramu Parasinma";
     Member.MSNo := Some (SStr "7036");
     Member.ShareCapital := Some (PyInt 800);
     Member.OpeningBalance :=
       Some {| Opening.Date := Some "2024-12-31";
               Opening.ThriftBalance := Some (PyInt 375463) |};
     Member.ThriftRecords :=
       Some [ {| Transaction.Date := Some "2025-01-14";
                 Transaction.Recovery := Some (PyInt 120000);
                 Transaction.ReceiptNumber := Some (Some "RCP123");
                 Transaction.Paid := Some (PyInt 495463);
                 Transaction.Balance := Some (PyInt 495463);
                 Transaction.DaysHeld := Some 167;
                 Transaction.InterestRate := Some (PyFloat 10.8);
                 Transaction.InterestAmount := Some (PyFloat 5910.74);
                 Transaction.TransactionType := Some "Bulk";
                 Transaction.InterestBand := Some "10.8%" |} ] |}.

Definition init_basic_sample_data (manager : ThriftManager) : ThriftManager :=
  if negb (dict_contains "1070135" (data manager))
  then add_member manager "1070135" sample_member
  else manager.

(** States used in the examples below. *)
Definition empty_manager : ThriftManager := {| data_file := NoFile; data := [] |}.

Definition sample_manager : ThriftManager := init_basic_sample_data empty_manager.

(** The fields of the add-member form; [opening_date] is the date already
    formatted by [strftime("%Y-%m-%d")]. *)
Record member_form := {
  member_id : string;
  member_name : string;
  ms_no : string;
  share_capital : Z;
  opening_date : string;
  opening_balance : float
}.

Inductive form_message :=
| RequiredFieldsMissing
| MemberIDExists
| MemberAdded.

Definition new_member (form : member_form) : Member.t :=
  {| Member.MemberID := None;
     Member.MemberName := Some (member_name form);
     Member.MSNo := Some (SStr (ms_no form));
     Member.ShareCapital := Some (PyInt (share_capital form));
     Member.OpeningBalance :=
       Some {| Opening.Date := Some (opening_date form);
               Opening.ThriftBalance := Some (PyFloat (opening_balance form)) |};
     Member.ThriftRecords := Some [] |}.

(** [add_member_page], once the form is submitted. *)
Definition add_member_page (manager : ThriftManager) (form : member_form)
    : ThriftManager * form_message :=
  if negb (forallb PyStr.truthy [member_id form; member_name form; ms_no form])
  then (manager, RequiredFieldsMissing)
  else if dict_contains (member_id form) (data manager)
  then (manager, MemberIDExists)
  else (add_member manager (member_id form) (new_member form), MemberAdded).

(** The transaction dictionary built by [add_transaction_page]:
    [receipt_number] is the stripped receipt text. *)
Definition new_transaction (transaction_date : string) (recovery_amount : float)
    (receipt_number : string) (paid_amount balance_amount : float) (days_held : Z)
    (interest_calc : Interest.t) : Transaction.t :=
  {| Transaction.Date := Some transaction_date;
     Transaction.Recovery := Some (PyFloat recovery_amount);
     Transaction.ReceiptNumber :=
       Some (if PyStr.truthy receipt_number then Some receipt_number else None);
     Transaction.Paid := Some (PyFloat paid_amount);
     Transaction.Balance := Some (PyFloat balance_amount);
     Transaction.DaysHeld := Some days_held;
     Transaction.InterestRate := Some (PyFloat (Interest.InterestRate interest_calc));
     Transaction.InterestAmount := Some (PyFloat (Interest.InterestAmount interest_calc));
     Transaction.TransactionType := Some (Interest.TransactionType interest_calc);
     Transaction.InterestBand := Some (Interest.InterestBand interest_calc) |}.

(** The transaction entered for recovery 50000 held 30 days, no receipt. *)
Definition sample_transaction : Transaction.t :=
  new_transaction "2025-02-01" 50000 "" 50000 50000 30
    {| Interest.InterestRate := 8.5;
       Interest.InterestAmount := 349.32;
       Interest.TransactionType := "Monthly";
       Interest.InterestBand := "8.5%" |}.

(** A store whose only member has no [ThriftRecords] key. *)
Definition bare_manager : ThriftManager :=
  add_member empty_manager "2001"
    {| Member.MemberID := None;
       Member.MemberName := Some "Sita Devi";
       Member.MSNo := Some (SNum (PyInt 7040));
       Member.ShareCapital := None;
       Member.OpeningBalance := None;
       Member.ThriftRecords := None |}.

(** ** The summary panel *)

(** The five figures shown by [display_summary_panel]. *)
Record summary := {
  total_recovery : number;
  interest_108 : number;
  interest_85 : number;
  grand_interest : number;
  final_balance : number
}.

(** [t.get('InterestRate') == rate] *)
Definition rate_is (rate : float) (t : Transaction.t) : bool :=
  match Transaction.InterestRate t with
  | Some r => py_eq r (PyFloat rate)
  | None => false
  end.

(** [None] when the panel returns before computing anything. *)
Definition display_summary_panel (member : Member.t) : outcome (option summary) :=
  let transactions := get_or (Member.ThriftRecords member) [] in
  match transactions with
  | [] => Returned None
  | _ :: _ =>
      total_recovery <-
        py_sum (map (fun t => get_or (Transaction.Recovery t) (PyInt 0)) transactions) ;;
      interest_108 <-
        py_sum (map (fun t => get_or (Transaction.InterestAmount t) (PyInt 0))
                    (filter (rate_is 10.8) transactions)) ;;
      interest_85 <-
        py_sum (map (fun t => get_or (Transaction.InterestAmount t) (PyInt 0))
                    (filter (rate_is 8.5) transactions)) ;;
      grand_interest <- py_add interest_108 interest_85 ;;
      let opening_balance :=
        get_or (Opening.ThriftBalance
                  (get_or (Member.OpeningBalance member) Opening.empty)) (PyInt 0) in
      partial <- py_add opening_balance total_recovery ;;
      final_balance <- py_add partial grand_interest ;;
      Returned (Some {| total_recovery := total_recovery;
                        interest_108 := interest_108;
                        interest_85 := interest_85;
                        grand_interest := grand_interest;
                        final_balance := final_balance |})
  end.

(** ** The rules as the specification words them *)

(** "if recoveryAmount >= 100000, rate = 10.8; else rate = 8.5" *)
Definition tier_rate (recoveryAmount : float) : float :=
  if (100000 <=? recoveryAmount)%float then 10.8%float else 8.5%float.

(** "round(recoveryAmount * rate * daysHeld / 36500, 2)" *)
Definition interest_formula (recoveryAmount rate daysHeld : float) : float :=
  PyFloat.round2 (recoveryAmount * rate * daysHeld / 36500)%float.

(** "is a substring of" *)
Definition is_substring (sub s : string) : Prop :=
  exists before after, s = before ++ sub ++ after.

(** "the lowercased term is a substring of the lowercased MemberID,
    MemberName, or string-coerced MSNo" *)
Definition term_matches (term member_id : string) (m : Member.t) : Prop :=
  is_substring (PyStr.lower term) (PyStr.lower member_id)
  \/ is_substring (PyStr.lower term)
        (PyStr.lower (get_or (Member.MemberName m) ""))
  \/ is_substring (PyStr.lower term)
        (PyStr.lower (str_scalar (get_or (Member.MSNo m) (SStr "")))).

(** "sum of Recovery over all transactions", an absent field counted as 0 *)
Definition sum_recovery (ts : list Transaction.t) : outcome number :=
  py_sum (map (fun t => get_or (Transaction.Recovery t) (PyInt 0)) ts).

(** "sum of InterestAmount over transactions with InterestRate == r" *)
Definition interest_at_rate (r : float) (ts : list Transaction.t) : outcome number :=
  py_sum (map (fun t => get_or (Transaction.InterestAmount t) (PyInt 0))
              (filter (rate_is r) ts)).

(** "OpeningBalance.ThriftBalance", counted as 0 when absent *)
Definition opening_thrift_balance (m : Member.t) : number :=
  match Member.OpeningBalance m with
  | Some ob => get_or (Opening.ThriftBalance ob) (PyInt 0)
  | None => PyInt 0
  end.



(** ** The remaining pages and the data loader *)

(** An exception that leaves a page: a missing dictionary key, or one raised
    by the arithmetic of the engine or of the summary. *)
Inductive raised :=
| KeyError (key : string)
| Propagated (e : exn).

Inductive result (A : Type) :=
| Done (a : A)
| Fails (e : raised).
Arguments Done {A} a.
Arguments Fails {A} e.

Definition result_bind {A B : Type} (c : result A) (k : A -> result B) : result B :=
  match c with
  | Done a => k a
  | Fails e => Fails e
  end.

Notation "x <~ c ;; k" := (result_bind c (fun x => k))
  (at level 61, c at next level, right associativity).

Definition of_outcome {A : Type} (c : outcome A) : result A :=
  match c with
  | Returned a => Done a
  | Raised e => Fails (Propagated e)
  end.

(** [d[key]] on an optional field. *)
Definition subscript {A : Type} (field : option A) (key : string) : result A :=
  match field with
  | Some a => Done a
  | None => Fails (KeyError key)
  end.

(** The characters [s.strip()] removes from ASCII text. *)
Definition is_space (c : ascii) : bool :=
  let n := nat_of_ascii c in
  (Nat.leb 9 n && Nat.leb n 13) || (Nat.leb 28 n && Nat.leb n 32).

Fixpoint lstrip (s : string) : string :=
  match s with
  | EmptyString => EmptyString
  | String c rest => if is_space c then lstrip rest else s
  end.

Fixpoint rstrip (s : string) : string :=
  match s with
  | EmptyString => EmptyString
  | String c rest =>
      match rstrip rest with
      | EmptyString => if is_space c then EmptyString else String c EmptyString
      | kept => String c kept
      end
  end.

(** [s.strip()] *)
Definition strip (s : string) : string := rstrip (lstrip s).

(** *** load_mock_data *)

(** The mock data file: missing, unusable before any member is read (not
    JSON, or a top-level value whose first element cannot be copied), or a
    list of member dictionaries. An element without [MemberID] stands for
    any element on which [member.copy()] or [pop("MemberID")] raises. *)
Inductive mock_file :=
| MockMissing
| MockUnusable
| MockList (mock_data_list : list Member.t).

(** [member_copy] after [member_copy.pop("MemberID")] *)
Definition pop_MemberID (member : Member.t) : Member.t :=
  {| Member.MemberID := None;
     Member.MemberName := Member.MemberName member;
     Member.MSNo := Member.MSNo member;
     Member.ShareCapital := Member.ShareCapital member;
     Member.OpeningBalance := Member.OpeningBalance member;
     Member.ThriftRecords := Member.ThriftRecords member |}.

(** The conversion loop of [load_mock_data]: the mapping reached, and whether
    the loop ran to its end ([false]: an element raised). *)
Fixpoint import_members (mock_data_list : list Member.t) (d : store) : store * bool :=
  match mock_data_list with
  | [] => (d, true)
  | member :: rest =>
      match Member.MemberID member with
      | None => (d, false)
      | Some member_id => import_members rest (dict_set member_id (pop_MemberID member) d)
      end
  end.

(** What [load_mock_data] writes to the sidebar. *)
Inductive sidebar :=
| NoMessage
| LoadedMembers (n : nat)
| LoadError.

Definition load_mock_data (manager : ThriftManager) (mock : mock_file)
    : ThriftManager * sidebar :=
  match data manager with
  | _ :: _ => (manager, NoMessage)
  | [] =>
      match mock with
      | MockMissing => (init_basic_sample_data manager, NoMessage)
      | MockUnusable => (init_basic_sample_data manager, LoadError)
      | MockList mock_data_list =>
          let '(d, finished) := import_members mock_data_list (data manager) in
          let manager := {| data_file := data_file manager; data := d |} in
          if finished then (save_data manager, LoadedMembers (List.length mock_data_list))
          else (init_basic_sample_data manager, LoadError)
      end
  end.

(** The first two statements of [main]. *)
Definition startup (file : document) (mock : mock_file) : outcome ThriftManager :=
  manager <- init file ;; Returned (fst (load_mock_data manager mock)).

(** *** display_member_details *)

(** What [display_member_details] passes to the widgets: the header metrics
    and, when there are transactions, the three tables and the summary. *)
Record transaction_tabs := {
  tab_all : list Transaction.t;
  tab_108 : list Transaction.t;
  tab_85 : list Transaction.t;
  panel : option summary
}.

Record member_view := {
  shown_member_id : string;
  shown_ms_no : scalar;
  shown_share_capital : number;
  shown_opening_date : string;
  shown_thrift_balance : number;
  shown_transactions : option transaction_tabs
}.

Definition display_member_details (member : Member.t) : result member_view :=
  member_id <~ subscript (Member.MemberID member) "MemberID" ;;
  let opening_balance := get_or (Member.OpeningBalance member) Opening.empty in
  let transactions := get_or (Member.ThriftRecords member) [] in
  tabs <~
    match transactions with
    | [] => Done None
    | _ :: _ =>
        let filtered_108 := filter (rate_is 10.8) transactions in
        let filtered_85 := filter (rate_is 8.5) transactions in
        s <~ of_outcome (display_summary_panel member) ;;
        Done (Some {| tab_all := transactions;
                      tab_108 := filtered_108;
                      tab_85 := filtered_85;
                      panel := s |})
    end ;;
  Done {| shown_member_id := member_id;
          shown_ms_no := get_or (Member.MSNo member) (SStr "N/A");
          shown_share_capital := get_or (Member.ShareCapital member) (PyInt 0);
          shown_opening_date := get_or (Opening.Date opening_balance) "N/A";
          shown_thrift_balance := get_or (Opening.ThriftBalance opening_balance) (PyInt 0);
          shown_transactions := tabs |}.

(** *** search_and_view_page *)

(** One expander: its label needs [member['MemberName']]. *)
Definition expander (member_name : option string) (member : Member.t)
    : result (string * member_view) :=
  name <~ subscript member_name "MemberName" ;;
  view <~ display_member_details member ;;
  Done (name, view).

Fixpoint expanders (members : list (option string * Member.t))
    : result (list (string * member_view)) :=
  match members with
  | [] => Done []
  | (member_name, member) :: rest =>
      first <~ expander member_name member ;;
      others <~ expanders rest ;;
      Done (first :: others)
  end.

(** The two parts of the page; [None] when a part is not drawn, and an empty
    list when it shows its "no members" notice. *)
Record search_view := {
  search_results : option (list (string * member_view));
  all_members : option (list (string * member_view))
}.

Definition search_and_view_page (manager : ThriftManager) (search_term : string)
    (search_button : bool) : result search_view :=
  found <~
    (if PyStr.truthy search_term || search_button then
       let results := search_members manager search_term in
       shown <~ expanders (map (fun member => (Member.MemberName member, member)) results) ;;
       Done (Some shown)
     else Done None) ;;
  everyone <~
    (if negb (PyStr.truthy search_term) then
       shown <~ expanders
                  (map (fun item =>
                          (Member.MemberName (snd item),
                           Member.with_MemberID (fst item) (snd item)))
                       (data manager)) ;;
       Done (Some shown)
     else Done None) ;;
  Done {| search_results := found; all_members := everyone |}.

(** *** add_transaction_page *)

Record transaction_form := {
  transaction_date : string;
  recovery_amount : float;
  receipt_number : string;
  paid_amount : float;
  balance_amount : float;
  days_held : Z
}.

Inductive transaction_message :=
| NoMembersWarning
| NothingSelected
| RecoveryNotPositive
| TransactionAdded
| TransactionFailed.

(** The labels of the select box: [data['MemberName']] for every member. *)
Fixpoint member_options (d : store) : result (list (string * string)) :=
  match d with
  | [] => Done []
  | (mid, member_data) :: rest =>
      name <~ subscript (Member.MemberName member_data) "MemberName" ;;
      others <~ member_options rest ;;
      Done ((name ++ " (" ++ mid ++ ")", mid) :: others)
  end.

(** [add_transaction_page] with the member chosen in the select box and the
    form submitted; [transaction_date] is the date already formatted. *)
Definition add_transaction_page (manager : ThriftManager) (selected_member : string)
    (form : transaction_form) : result (ThriftManager * transaction_message) :=
  match data manager with
  | [] => Done (manager, NoMembersWarning)
  | _ :: _ =>
      options <~ member_options (data manager) ;;
      if negb (PyStr.truthy selected_member) then Done (manager, NothingSelected)
      else if (recovery_amount form <=? 0)%float then Done (manager, RecoveryNotPositive)
      else
        let has_receipt := PyStr.truthy (strip (receipt_number form)) in
        interest_calc <~
          of_outcome (calculate_interest (recovery_amount form) (days_held form) has_receipt) ;;
        let new_transaction :=
          new_transaction (transaction_date form) (recovery_amount form)
            (strip (receipt_number form)) (paid_amount form) (balance_amount form)
            (days_held form) interest_calc in
        let '(manager, added) := add_transaction manager selected_member new_transaction in
        Done (manager, if added then TransactionAdded else TransactionFailed)
  end.

(** *** analytics_page *)

(** A row of [all_transactions]: the transaction with its owner. *)
Module Row.
Record t := {
  transaction : Transaction.t;
  MemberID : string;
  MemberName : string
}.
End Row.

Definition all_transactions (d : store) : list Row.t :=
  fold_left
    (fun rows item =>
       let '(member_id, member_data) := item in
       fold_left
         (fun rows transaction =>
            (rows ++ [ {| Row.transaction := transaction;
                          Row.MemberID := member_id;
                          Row.MemberName := get_or (Member.MemberName member_data) "" |} ])%list)
         (get_or (Member.ThriftRecords member_data) [])
         rows)
    d [].

(** [sum(len(member.get('ThriftRecords', [])) for member in manager.data.values())] *)
Definition total_transactions (d : store) : outcome number :=
  py_sum (map (fun item =>
                 PyInt (Z.of_nat (List.length (get_or (Member.ThriftRecords (snd item)) []))))
              d).

(** What [analytics_page] has when it reaches the group-bys: the two counts
    and the rows of the data frame. *)
Inductive analytics :=
| NoDataWarning
| NoTransactionsInfo (total_members : nat)
| Frame (total_members : nat) (total : number) (rows : list Row.t).

Definition analytics_page (manager : ThriftManager) : outcome analytics :=
  match data manager with
  | [] => Returned NoDataWarning
  | _ :: _ =>
      let total_members := List.length (data manager) in
      total <- total_transactions (data manager) ;;
      if py_eq total (PyInt 0) then Returned (NoTransactionsInfo total_members)
      else Returned (Frame total_members total (all_transactions (data manager)))
  end.

(** *** data_management_page *)

(** The "Clear All Data" button. *)
Definition clear_all_data (manager : ThriftManager) : ThriftManager :=
  save_data {| data_file := data_file manager; data := [] |}.

(** The "Reload Mock Data" button. *)
Definition reload_mock_data (manager : ThriftManager) (mock : mock_file)
    : ThriftManager * sidebar :=
  load_mock_data {| data_file := data_file manager; data := [] |} mock.

(** [{"MemberID": member_id, **member_data}]: a [MemberID] key of the record
    itself overrides the one put first. *)
Definition export_record (member_id : string) (member_data : Member.t) : Member.t :=
  match Member.MemberID member_data with
  | Some _ => member_data
  | None => Member.with_MemberID member_id member_data
  end.

(** The list behind the "Download JSON" button; [None] when the store is
    empty and no button is drawn. *)
Definition export_data (manager : ThriftManager) : option (list Member.t) :=
  match data manager with
  | [] => None
  | _ :: _ =>
      Some (fold_left
              (fun exported item =>
                 (exported ++ [export_record (fst item) (snd item)])%list)
              (data manager) [])
  end.

(** A row of [csv_data]. *)
Module CsvRow.
Record t := {
  MemberID : string;
  MemberName : string;
  MSNo : scalar;
  ShareCapital : number;
  OpeningBalance : number;
  transaction : Transaction.t
}.
End CsvRow.

Definition csv_data (d : store) : list CsvRow.t :=
  fold_left
    (fun rows item =>
       let '(member_id, member_data) := item in
       fold_left
         (fun rows transaction =>
            (rows ++ [ {| CsvRow.MemberID := member_id;
                          CsvRow.MemberName := get_or (Member.MemberName member_data) "";
                          CsvRow.MSNo := get_or (Member.MSNo member_data) (SStr "");
                          CsvRow.ShareCapital :=
                            get_or (Member.ShareCapital member_data) (PyInt 0);
                          CsvRow.OpeningBalance :=
                            get_or (Opening.ThriftBalance
                                      (get_or (Member.OpeningBalance member_data)
                                              Opening.empty)) (PyInt 0);
                          CsvRow.transaction := transaction |} ])%list)
         (get_or (Member.ThriftRecords member_data) [])
         rows)
    d [].

(** Forms used in the examples below. *)
Definition negative_recovery_form : transaction_form :=
  {| transaction_date := "2025-02-01"; recovery_amount := (-500)%float;
     receipt_number := "RCP9"; paid_amount := 0; balance_amount := 0;
     days_held := 30 |}.

Definition blank_receipt_form : transaction_form :=
  {| transaction_date := "2025-02-01"; recovery_amount := 50000;
     receipt_number := "  "; paid_amount := 50000; balance_amount := 50000;
     days_held := 30 |}.

(** A member whose only transaction was stored with the rate 10 and an
    interest amount of 99. *)
Definition other_rate_member : Member.t :=
  {| Member.MemberID := None;
     Member.MemberName := Some "Gopal";
     Member.MSNo := None;
     Member.ShareCapital := None;
     Member.OpeningBalance :=
       Some {| Opening.Date := None; Opening.ThriftBalance := Some (PyInt 1000) |};
     Member.ThriftRecords :=
       Some [ {| Transaction.Date := None;
                 Transaction.Recovery := Some (PyInt 500);
                 Transaction.ReceiptNumber := None;
                 Transaction.Paid := None;
                 Transaction.Balance := None;
                 Transaction.DaysHeld := None;
                 Transaction.InterestRate := Some (PyInt 10);
                 Transaction.InterestAmount := Some (PyInt 99);
                 Transaction.TransactionType := None;
                 Transaction.InterestBand := None |} ] |}.

Definition other_rate_summary : summary :=
  {| total_recovery := PyInt 500;
     interest_108 := PyInt 0;
     interest_85 := PyInt 0;
     grand_interest := PyInt 0;
     final_balance := PyInt 1500 |}.

(** ** Properties of a store used in the statements below *)

(** The document holds exactly the mapping. *)
Definition persisted (self : ThriftManager) : Prop :=
  data_file self = Document (PDict (data self)).

(** No stored record has a [MemberID] key of its own. *)
Definition keys_outside (d : store) : Prop :=
  forall member_id m, In (member_id, m) d -> Member.MemberID m = None.

(** The keys of a mapping, in order. *)
Definition keys {V : Type} (d : dict V) : list string := map fst d.

(** The records of a member, each made into a row by [f]. *)
Definition rows_of {B : Type} (f : string -> Member.t -> Transaction.t -> B)
    (item : string * Member.t) : list B :=
  map (f (fst item) (snd item)) (get_or (Member.ThriftRecords (snd item)) []).

(** The row that [all_transactions] builds. *)
Definition analytics_row (member_id : string) (member_data : Member.t)
    (transaction : Transaction.t) : Row.t :=
  {| Row.transaction := transaction;
     Row.MemberID := member_id;
     Row.MemberName := get_or (Member.MemberName member_data) "" |}.

(** The row that [csv_data] builds. *)
Definition csv_row (member_id : string) (member_data : Member.t)
    (transaction : Transaction.t) : CsvRow.t :=
  {| CsvRow.MemberID := member_id;
     CsvRow.MemberName := get_or (Member.MemberName member_data) "";
     CsvRow.MSNo := get_or (Member.MSNo member_data) (SStr "");
     CsvRow.ShareCapital := get_or (Member.ShareCapital member_data) (PyInt 0);
     CsvRow.OpeningBalance :=
       get_or (Opening.ThriftBalance
                 (get_or (Member.OpeningBalance member_data) Opening.empty)) (PyInt 0);
     CsvRow.transaction := transaction |}.

(** * Properties *)

(** ** Results *)

Lemma bind_returned {A B : Type} (c : outcome A) (k : A -> outcome B) (b : B) :
  bind c k = Returned b <-> exists a, c = Returned a /\ k a = Returned b.
Proof.
  split.
  - destruct c as [a|e]; simpl; intros H; [exists a; auto | discriminate].
  - intros [a [-> H]]; exact H.
Qed.

(** ** Float comparisons *)

Lemma SFcompare_antisym (x y : spec_float) :
  SFcompare y x = option_map CompOpp (SFcompare x y).
Proof.
  destruct x as [sx|sx| |sx mx ex], y as [sy|sy| |sy my ey]; simpl;
    try reflexivity;
    try (destruct sx; reflexivity);
    try (destruct sy; reflexivity);
    try (destruct sx, sy; reflexivity).
  destruct sx, sy; simpl; try reflexivity;
    rewrite (Z.compare_antisym ex ey);
    destruct (ex ?= ey); simpl; try reflexivity;
    pose proof (Pos.compare_cont_antisym mx my Eq) as H; simpl in H;
    rewrite <- H; destruct (Pos.compare_cont Eq mx my); reflexivity.
Qed.

(** [x < y] excludes [x >= y]. *)
Lemma ltb_not_geb (x y : float) :
  (x <? y)%float = true -> (y <=? x)%float = false.
Proof.
  rewrite ltb_spec, leb_spec. unfold SFltb, SFleb.
  rewrite (SFcompare_antisym (Prim2SF x) (Prim2SF y)).
  destruct (SFcompare (Prim2SF x) (Prim2SF y)) as [[ | | ]|]; simpl;
    intros H; try discriminate H; reflexivity.
Qed.

(** ** Conversion of integers below 2^53 *)

Lemma digits2_pos_lower (m : positive) :
  2 ^ (Zpos (digits2_pos m) - 1) <= Zpos m.
Proof.
  induction m as [m IH|m IH|]; simpl digits2_pos.
  - rewrite Pos2Z.inj_succ.
    replace (Z.succ (Zpos (digits2_pos m)) - 1) with (Z.succ (Zpos (digits2_pos m) - 1)) by lia.
    rewrite Z.pow_succ_r by lia. lia.
  - rewrite Pos2Z.inj_succ.
    replace (Z.succ (Zpos (digits2_pos m)) - 1) with (Z.succ (Zpos (digits2_pos m) - 1)) by lia.
    rewrite Z.pow_succ_r by lia. lia.
  - simpl. lia.
Qed.

Lemma digits2_pos_small (m : positive) :
  Zpos m < 2 ^ 53 -> Zpos (digits2_pos m) <= 53.
Proof.
  intros Hm. destruct (Z_le_gt_dec (Zpos (digits2_pos m)) 53) as [H|H]; [exact H|].
  exfalso. pose proof (digits2_pos_lower m) as Hlow.
  assert (2 ^ 53 <= 2 ^ (Zpos (digits2_pos m) - 1)) by (apply Z.pow_le_mono_r; lia).
  lia.
Qed.

Lemma digits2_pos_iter_xO (m k : positive) :
  digits2_pos (Pos.iter xO m k) = (digits2_pos m + k)%positive.
Proof.
  induction k as [|k IH] using Pos.peano_ind.
  - simpl. lia.
  - rewrite Pos.iter_succ. simpl. rewrite IH. lia.
Qed.

(** A right shift by the distance to the canonical exponent, when that
    distance is zero. *)
Ltac shift_is_zero :=
  match goal with
  | |- context [shr ?r ?e ?n] =>
      replace n with 0 by (unfold fexp, emin, prec, emax; simpl Zdigits2; lia)
  end;
  cbn [shr shr_record_of_loc shr_m loc_of_shr_record round_nearest_even].

Lemma binary_round_small (s : bool) (m : positive) :
  Zpos m < 2 ^ 53 ->
  exists m' e', binary_round prec emax s m 0 = S754_finite s m' e'.
Proof.
  intros Hm. pose proof (digits2_pos_small m Hm) as Hd.
  unfold binary_round, shl_align.
  match goal with
  | |- context [fexp ?p ?e ?x] =>
      replace (fexp p e x) with (Zpos (digits2_pos m) - 53)
        by (unfold fexp, emin, prec, emax; lia)
  end.
  replace (Z.pos (digits2_pos m) - 53 - 0) with (Z.pos (digits2_pos m) - 53) by lia.
  destruct (Z.pos (digits2_pos m) - 53) as [|k|k] eqn:E; try lia.
  - unfold binary_round_aux, shr_fexp.
    shift_is_zero. shift_is_zero. change (0 <=? emax - prec) with true. cbv iota. eauto.
  - unfold binary_round_aux, shr_fexp.
    pose proof (digits2_pos_iter_xO m k) as Hk.
    assert (Hk' : Zdigits2 (Zpos (Pos.iter xO m k)) = Zpos (digits2_pos m) + Zpos k).
    { simpl. rewrite Hk. lia. }
    match goal with
    | |- context [shr ?r ?e ?n] =>
        replace n with 0 by (rewrite Hk'; unfold fexp, emin, prec, emax; lia)
    end.
    cbn [shr shr_record_of_loc shr_m loc_of_shr_record round_nearest_even].
    match goal with
    | |- context [shr ?r ?e ?n] =>
        replace n with 0 by (rewrite Hk'; unfold fexp, emin, prec, emax; lia)
    end.
    cbn [shr shr_record_of_loc shr_m loc_of_shr_record round_nearest_even].
    assert (Hle : (Z.neg k <=? emax - prec) = true).
    { apply Z.leb_le. unfold emax, prec. lia. }
    rewrite Hle. eauto.
Qed.

(** An integer below 2^53 in magnitude converts to a float. *)
Lemma float_of_int_small (z : Z) :
  Z.abs z < 2 ^ 53 -> exists days, PyFloat.float_of_int z = Returned days.
Proof.
  intros Hz. unfold PyFloat.float_of_int, binary_normalize.
  destruct z as [|m|m].
  - eexists. reflexivity.
  - destruct (binary_round_small false m) as [m' [e' ->]]; [exact Hz|].
    eexists. reflexivity.
  - destruct (binary_round_small true m) as [m' [e' ->]]; [exact Hz|].
    eexists. reflexivity.
Qed.

(** ** calculate_interest *)

Lemma calculate_interest_returns (recovery_amount : float) (days_held : Z)
    (has_receipt : bool) (days : float) :
  PyFloat.float_of_int days_held = Returned days ->
  calculate_interest recovery_amount days_held has_receipt =
  Returned {| Interest.InterestRate := tier_rate recovery_amount;
              Interest.InterestAmount :=
                interest_formula recovery_amount (tier_rate recovery_amount) days;
              Interest.TransactionType := if has_receipt then "Bulk" else "Monthly";
              Interest.InterestBand := f_percent (tier_rate recovery_amount) |}.
Proof.
  intros Hdays. unfold calculate_interest, tier_rate, interest_formula.
  destruct (100000 <=? recovery_amount)%float; rewrite Hdays; reflexivity.
Qed.

Lemma calculate_interest_raises (recovery_amount : float) (days_held : Z)
    (has_receipt : bool) (e : exn) :
  PyFloat.float_of_int days_held = Raised e ->
  calculate_interest recovery_amount days_held has_receipt = Raised e.
Proof.
  intros Hdays. unfold calculate_interest.
  destruct (100000 <=? recovery_amount)%float; rewrite Hdays; reflexivity.
Qed.

Lemma f_percent_rates :
  f_percent 10.8 = "10.8%" /\ f_percent 8.5 = "8.5%".
Proof. split; vm_compute; reflexivity. Qed.

Lemma float_neq_by_eqb (x y : float) :
  PrimFloat.eqb x y = false -> PrimFloat.eqb y y = true -> x <> y.
Proof. intros Hxy Hyy E. rewrite E in Hxy. congruence. Qed.

(** C1 (amended). For every recovery amount and every positive integer
    [days_held] that converts to a float (every one below 2^53 does),
    [calculate_interest] returns [InterestAmount] equal to
    [round(recoveryAmount * rate * daysHeld / 36500, 2)] at the tier rate of
    [recoveryAmount]; recovery 120000 held 167 days at rate 10.8 yields
    5929.64. *)
Theorem calculate_interest_amount :
  (forall (recovery_amount : float) (days_held : Z) (has_receipt : bool) (days : float),
      0 < days_held ->
      PyFloat.float_of_int days_held = Returned days ->
      exists res,
        calculate_interest recovery_amount days_held has_receipt = Returned res
        /\ Interest.InterestAmount res =
           interest_formula recovery_amount (tier_rate recovery_amount) days)
  /\ (forall (recovery_amount : float) (days_held : Z) (has_receipt : bool),
        0 < days_held < 2 ^ 53 ->
        exists days res,
          PyFloat.float_of_int days_held = Returned days
          /\ calculate_interest recovery_amount days_held has_receipt = Returned res
          /\ Interest.InterestAmount res =
             interest_formula recovery_amount (tier_rate recovery_amount) days)
  /\ (exists res,
        calculate_interest 120000 167 true = Returned res
        /\ Interest.InterestRate res = 10.8%float
        /\ Interest.InterestAmount res = 5929.64%float).
Proof.
  split; [|split].
  - intros r d h days _ Hdays.
    eexists. split; [apply (calculate_interest_returns r d h days Hdays) | reflexivity].
  - intros r d h Hd.
    destruct (float_of_int_small d) as [days Hdays]; [lia|].
    exists days. eexists. split; [exact Hdays|].
    split; [apply (calculate_interest_returns r d h days Hdays) | reflexivity].
  - eexists. split; [vm_compute; reflexivity | split; vm_compute; reflexivity].
Qed.

Lemma calculate_interest_amount_witness :
  (exists res,
      calculate_interest 50000 30 false = Returned res
      /\ Interest.InterestAmount res = interest_formula 50000 (tier_rate 50000) 30)
  /\ (exists days res,
        PyFloat.float_of_int 167 = Returned days
        /\ calculate_interest 120000 167 true = Returned res
        /\ Interest.InterestAmount res = interest_formula 120000 (tier_rate 120000) days).
Proof.
  split.
  - apply (proj1 calculate_interest_amount 50000%float 30 false 30%float).
    + lia.
    + vm_compute; reflexivity.
  - apply (proj1 (proj2 calculate_interest_amount) 120000%float 167 true). lia.
Defined.

(** C1 as stated fails: the amount for recovery 120000 held 167 days is
    5929.64, not 5910.74. *)
Lemma calculate_interest_amount_not_5910_74 :
  exists res,
    calculate_interest 120000 167 true = Returned res
    /\ Interest.InterestAmount res = 5929.64%float
    /\ Interest.InterestAmount res <> 5910.74%float.
Proof.
  eexists. split; [vm_compute; reflexivity|]. split; [vm_compute; reflexivity|].
  apply float_neq_by_eqb; vm_compute; reflexivity.
Qed.

(** C2. Whenever [calculate_interest] returns (that is, whenever [days_held]
    converts to a float), the returned [InterestRate] is 10.8 if
    [recovery_amount >= 100000] and 8.5 if [recovery_amount < 100000],
    whatever [days_held] and [has_receipt] are. *)
Theorem calculate_interest_rate_tier
    (recovery_amount : float) (days_held : Z) (has_receipt : bool) (days : float) :
  PyFloat.float_of_int days_held = Returned days ->
  exists res,
    calculate_interest recovery_amount days_held has_receipt = Returned res
    /\ ((100000 <=? recovery_amount)%float = true ->
        Interest.InterestRate res = 10.8%float)
    /\ ((recovery_amount <? 100000)%float = true ->
        Interest.InterestRate res = 8.5%float).
Proof.
  intros Hdays. eexists. split.
  - apply (calculate_interest_returns _ _ _ _ Hdays).
  - simpl. unfold tier_rate. split.
    + intros ->. reflexivity.
    + intros Hlt. rewrite (ltb_not_geb _ _ Hlt). reflexivity.
Qed.

Lemma calculate_interest_rate_tier_witness :
  (exists res,
      calculate_interest 100000 1 false = Returned res
      /\ ((100000 <=? 100000)%float = true -> Interest.InterestRate res = 10.8%float)
      /\ ((100000 <? 100000)%float = true -> Interest.InterestRate res = 8.5%float))
  /\ (exists res,
      calculate_interest 99999.99 365 true = Returned res
      /\ ((100000 <=? 99999.99)%float = true -> Interest.InterestRate res = 10.8%float)
      /\ ((99999.99 <? 100000)%float = true -> Interest.InterestRate res = 8.5%float)).
Proof.
  split.
  - apply (calculate_interest_rate_tier 100000%float 1 false 1%float).
    vm_compute; reflexivity.
  - apply (calculate_interest_rate_tier 99999.99%float 365 true 365%float).
    vm_compute; reflexivity.
Defined.

(** C3. Whenever [calculate_interest] returns, [TransactionType] is ["Bulk"]
    if and only if [has_receipt] is true, and ["Monthly"] otherwise, in both
    rate tiers. *)
Theorem calculate_interest_transaction_type
    (recovery_amount : float) (days_held : Z) (has_receipt : bool) (days : float) :
  PyFloat.float_of_int days_held = Returned days ->
  exists res,
    calculate_interest recovery_amount days_held has_receipt = Returned res
    /\ (Interest.TransactionType res = "Bulk" <-> has_receipt = true)
    /\ (Interest.TransactionType res = "Monthly" <-> has_receipt = false).
Proof.
  intros Hdays. eexists. split.
  - apply (calculate_interest_returns _ _ _ _ Hdays).
  - simpl. destruct has_receipt; split; split; intros H;
      try reflexivity; discriminate H.
Qed.

Lemma calculate_interest_transaction_type_witness :
  exists res,
    calculate_interest 120000 167 true = Returned res
    /\ (Interest.TransactionType res = "Bulk" <-> true = true)
    /\ (Interest.TransactionType res = "Monthly" <-> true = false).
Proof.
  apply (calculate_interest_transaction_type 120000%float 167 true 167%float).
  vm_compute; reflexivity.
Defined.

(** C9. Every result of [calculate_interest] has [InterestBand] equal to
    [f"{InterestRate}%"], which is ["10.8%"] for rate 10.8 and ["8.5%"] for
    rate 8.5; a transaction built from the result carries the same two
    fields. *)
Theorem calculate_interest_band
    (recovery_amount : float) (days_held : Z) (has_receipt : bool) (days : float) :
  PyFloat.float_of_int days_held = Returned days ->
  exists res,
    calculate_interest recovery_amount days_held has_receipt = Returned res
    /\ Interest.InterestBand res = f_percent (Interest.InterestRate res)
    /\ (Interest.InterestRate res = 10.8%float -> Interest.InterestBand res = "10.8%")
    /\ (Interest.InterestRate res = 8.5%float -> Interest.InterestBand res = "8.5%")
    /\ (forall date receipt paid balance,
          let t := new_transaction date recovery_amount receipt paid balance
                     days_held res in
          exists rate,
            Transaction.InterestRate t = Some (PyFloat rate)
            /\ Transaction.InterestBand t = Some (f_percent rate)).
Proof.
  intros Hdays. eexists. split.
  - apply (calculate_interest_returns _ _ _ _ Hdays).
  - simpl. split; [reflexivity|]. split; [|split].
    + intros ->. apply f_percent_rates.
    + intros ->. apply f_percent_rates.
    + intros date receipt paid balance. simpl. eexists. split; reflexivity.
Qed.

Lemma calculate_interest_band_witness :
  exists res,
    calculate_interest 120000 167 true = Returned res
    /\ Interest.InterestBand res = f_percent (Interest.InterestRate res)
    /\ (Interest.InterestRate res = 10.8%float -> Interest.InterestBand res = "10.8%")
    /\ (Interest.InterestRate res = 8.5%float -> Interest.InterestBand res = "8.5%")
    /\ (forall date receipt paid balance,
          let t := new_transaction date 120000 receipt paid balance 167 res in
          exists rate,
            Transaction.InterestRate t = Some (PyFloat rate)
            /\ Transaction.InterestBand t = Some (f_percent rate)).
Proof.
  apply (calculate_interest_band 120000%float 167 true 167%float).
  vm_compute; reflexivity.
Defined.

(** ** Dictionaries *)

Section DictFacts.
Context {V : Type}.
Implicit Types (d : dict V) (k : string) (v : V).

Lemma dict_contains_get k d :
  dict_contains k d = true <-> exists v, dict_get k d = Some v.
Proof.
  unfold dict_contains. destruct (dict_get k d) as [v|].
  - split; [exists v; reflexivity | reflexivity].
  - split; [discriminate | intros [v H]; discriminate H].
Qed.

Lemma dict_get_set_same k v d : dict_get k (dict_set k v d) = Some v.
Proof.
  induction d as [|[k' v'] rest IH]; simpl.
  - rewrite String.eqb_refl. reflexivity.
  - destruct (String.eqb k' k) eqn:E; simpl; rewrite E; [reflexivity | exact IH].
Qed.

Lemma dict_get_set_other k k0 v d :
  k0 <> k -> dict_get k0 (dict_set k v d) = dict_get k0 d.
Proof.
  intros Hne. induction d as [|[k' v'] rest IH]; simpl.
  - destruct (String.eqb k k0) eqn:E; [|reflexivity].
    apply String.eqb_eq in E. congruence.
  - destruct (String.eqb k' k) eqn:E; simpl.
    + apply String.eqb_eq in E. subst k'.
      destruct (String.eqb k k0) eqn:E0; [|reflexivity].
      apply String.eqb_eq in E0. congruence.
    + rewrite IH. reflexivity.
Qed.

(** Assigning to a key that is present keeps the order of the keys. *)
Lemma dict_set_present_keys k v d :
  dict_contains k d = true -> map fst (dict_set k v d) = map fst d.
Proof.
  unfold dict_contains. induction d as [|[k' v'] rest IH]; simpl.
  - discriminate.
  - destruct (String.eqb k' k) eqn:E; simpl; intros H.
    + reflexivity.
    + rewrite (IH H). reflexivity.
Qed.

(** Assigning to a key that is absent appends the item. *)
Lemma dict_set_absent k v d :
  dict_contains k d = false -> dict_set k v d = (d ++ [(k, v)])%list.
Proof.
  unfold dict_contains. induction d as [|[k' v'] rest IH]; simpl.
  - reflexivity.
  - destruct (String.eqb k' k) eqn:E; simpl; intros H.
    + discriminate H.
    + rewrite (IH H). reflexivity.
Qed.
End DictFacts.

(** ** load_data *)

(** What [save_data] writes is what [load_data] reads back. *)
Lemma load_saved_data (self : ThriftManager) :
  load_data (data_file (save_data self)) = Returned (data self).
Proof. reflexivity. Qed.

(** C6. [load_data] returns an empty mapping when the document does not
    exist, the parsed mapping when the top-level value is a mapping, and an
    empty mapping, not an error, when the top-level value has any other
    shape, a sequence for one. *)
Theorem load_data_shapes :
  load_data NoFile = Returned []
  /\ (forall d : store, load_data (Document (PDict d)) = Returned d)
  /\ (forall v : parsed, is_dict v = false -> load_data (Document v) = Returned [])
  /\ (forall items : list json, load_data (Document (PList items)) = Returned []).
Proof.
  repeat split.
  intros v Hv. destruct v; try reflexivity. discriminate Hv.
Qed.

Lemma load_data_shapes_witness :
  load_data (Document (PList [JObject [("MemberID", JString "1070135")]])) = Returned []
  /\ load_data (Document (PString "members")) = Returned []
  /\ load_data (Document PNone) = Returned [].
Proof.
  pose proof load_data_shapes as [_ [_ [Hother _]]].
  repeat split; apply Hother; reflexivity.
Defined.

(** ** add_transaction *)

(** C5. [add_transaction] with a member id absent from the store returns
    [False] and leaves the mapping and the persisted document unchanged;
    with a present id it appends the transaction to that member's
    [ThriftRecords] (starting from the empty list if the key is missing),
    leaves the other members alone, persists the mapping and returns
    [True]. *)
Theorem add_transaction_cases
    (self : ThriftManager) (member_id : string) (transaction : Transaction.t) :
  (dict_contains member_id (data self) = false ->
     add_transaction self member_id transaction = (self, false))
  /\ (forall member_data,
        dict_get member_id (data self) = Some member_data ->
        exists self',
          add_transaction self member_id transaction = (self', true)
          /\ dict_get member_id (data self') =
             Some (Member.with_ThriftRecords
                     (get_or (Member.ThriftRecords member_data) [] ++ [transaction])%list
                     member_data)
          /\ (forall other, other <> member_id ->
                dict_get other (data self') = dict_get other (data self))
          /\ map fst (data self') = map fst (data self)
          /\ data_file self' = Document (PDict (data self'))).
Proof.
  split.
  - unfold dict_contains, add_transaction.
    destruct (dict_get member_id (data self)); [discriminate | reflexivity].
  - intros member_data Hget. unfold add_transaction. rewrite Hget.
    eexists. split; [reflexivity|]. simpl.
    split; [rewrite dict_get_set_same; destruct member_data as [i n ms sc ob [records|]];
            reflexivity|].
    split; [intros other Hne; apply dict_get_set_other; exact Hne|].
    split; [|reflexivity].
    apply dict_set_present_keys, dict_contains_get. exists member_data. exact Hget.
Qed.

Lemma sample_transaction_from_engine :
  exists res,
    calculate_interest 50000 30 false = Returned res
    /\ sample_transaction = new_transaction "2025-02-01" 50000 "" 50000 50000 30 res.
Proof. eexists. split; vm_compute; reflexivity. Qed.

Lemma add_transaction_cases_witness :
  add_transaction sample_manager "9999" sample_transaction = (sample_manager, false)
  /\ (exists self',
        add_transaction bare_manager "2001" sample_transaction = (self', true)
        /\ option_map Member.ThriftRecords (dict_get "2001" (data self')) =
           Some (Some [sample_transaction])
        /\ data_file self' = Document (PDict (data self'))).
Proof.
  split.
  - apply (proj1 (add_transaction_cases sample_manager "9999" sample_transaction)).
    reflexivity.
  - destruct (proj2 (add_transaction_cases bare_manager "2001" sample_transaction)
                _ eq_refl) as [self' [Hadd [Hget [_ [_ Hfile]]]]].
    exists self'. split; [exact Hadd|]. split; [|exact Hfile].
    rewrite Hget. reflexivity.
Defined.

(** ** Adding a member *)

(** The store itself does not guard against an existing id: [add_member]
    assigns, replacing the record in place. *)
Lemma add_member_assigns (self : ThriftManager) (member_id : string) (m : Member.t) :
  dict_get member_id (data (add_member self member_id m)) = Some m
  /\ data_file (add_member self member_id m) =
     Document (PDict (data (add_member self member_id m))).
Proof. split; [apply dict_get_set_same | reflexivity]. Qed.

Lemma required_fields_filled (form : member_form) :
  forallb PyStr.truthy [member_id form; member_name form; ms_no form] = true <->
  member_id form <> "" /\ member_name form <> "" /\ ms_no form <> "".
Proof.
  simpl. rewrite !andb_true_iff.
  destruct (member_id form), (member_name form), (ms_no form); simpl;
    intuition congruence.
Qed.

(** C4 (amended). The duplicate check is made by the add-member form
    handler; [ThriftManager.add_member] itself assigns whatever it is given.
    On a submitted form whose id, name and MS number are all non-empty,
    adding a member id already in the store fails with the "Member ID
    already exists" message and leaves the store and the document unchanged,
    and adding an absent id inserts the new record last, persists the
    mapping and succeeds. A form with an empty required field fails with the
    required-fields message and changes nothing, whether or not the id is in
    the store. *)
Theorem add_member_page_cases (manager : ThriftManager) (form : member_form) :
  (member_id form <> "" /\ member_name form <> "" /\ ms_no form <> "" ->
     (dict_contains (member_id form) (data manager) = true ->
        add_member_page manager form = (manager, MemberIDExists))
     /\ (dict_contains (member_id form) (data manager) = false ->
           exists manager',
             add_member_page manager form = (manager', MemberAdded)
             /\ manager' = add_member manager (member_id form) (new_member form)
             /\ data manager' =
                (data manager ++ [(member_id form, new_member form)])%list
             /\ dict_get (member_id form) (data manager') = Some (new_member form)
             /\ data_file manager' = Document (PDict (data manager'))))
  /\ (member_id form = "" \/ member_name form = "" \/ ms_no form = "" ->
        add_member_page manager form = (manager, RequiredFieldsMissing))
  /\ (forall m : Member.t,
        dict_get (member_id form) (data (add_member manager (member_id form) m)) = Some m).
Proof.
  split; [|split].
  - intros Hfilled. apply required_fields_filled in Hfilled.
    unfold add_member_page. rewrite Hfilled. simpl negb. cbv iota. split.
    + intros ->. reflexivity.
    + intros Habsent. rewrite Habsent. eexists. split; [reflexivity|].
      split; [reflexivity|]. split; [|split].
      * simpl. apply dict_set_absent. exact Habsent.
      * apply add_member_assigns.
      * reflexivity.
  - intros Hblank. unfold add_member_page.
    destruct (forallb PyStr.truthy [member_id form; member_name form; ms_no form])
      eqn:E; [|reflexivity].
    apply required_fields_filled in E. destruct E as [H1 [H2 H3]].
    destruct Hblank as [H|[H|H]]; congruence.
  - intros m. apply add_member_assigns.
Qed.

Lemma add_member_page_cases_witness :
  add_member_page sample_manager
    {| member_id := "1070135"; member_name := "Ramu"; ms_no := "7036";
       share_capital := 800; opening_date := "2024-12-31"; opening_balance := 0 |}
  = (sample_manager, MemberIDExists)
  /\ (exists manager',
        add_member_page sample_manager
          {| member_id := "1070136"; member_name := "Lakshmi"; ms_no := "7037";
             share_capital := 800; opening_date := "2024-12-31"; opening_balance := 0 |}
        = (manager', MemberAdded)
        /\ map fst (data manager') = ["1070135"; "1070136"]
        /\ data_file manager' = Document (PDict (data manager'))).
Proof.
  split.
  - apply (proj1 (add_member_page_cases sample_manager _)).
    + simpl. repeat split; discriminate.
    + reflexivity.
  - destruct (proj1 (add_member_page_cases sample_manager
                {| member_id := "1070136"; member_name := "Lakshmi"; ms_no := "7037";
                   share_capital := 800; opening_date := "2024-12-31";
                   opening_balance := 0 |})) as [_ Hadd].
    + simpl. repeat split; discriminate.
    + destruct (Hadd eq_refl) as [manager' [Hpage [_ [Hdata [_ Hfile]]]]].
      exists manager'. split; [exact Hpage|]. split; [|exact Hfile].
      rewrite Hdata. reflexivity.
Defined.

(** C4 as stated fails twice over. With the id in the store and the name
    left empty, the handler's failure is the required-fields message, not
    the duplicate-id one; and [add_member] called on an id in the store
    does not fail, it replaces the record. *)
Lemma add_member_present_id_not_duplicate_failure :
  let form := {| member_id := "1070135"; member_name := ""; ms_no := "7036";
                 share_capital := 800; opening_date := "2024-12-31";
                 opening_balance := 0 |} in
  dict_get "1070135" (data sample_manager) = Some sample_member
  /\ add_member_page sample_manager form = (sample_manager, RequiredFieldsMissing)
  /\ snd (add_member_page sample_manager form) <> MemberIDExists
  /\ dict_get "1070135" (data (add_member sample_manager "1070135" (new_member form)))
     = Some (new_member form)
  /\ new_member form <> sample_member.
Proof.
  simpl. split; [reflexivity|]. split; [reflexivity|]. split; [discriminate|].
  split; [reflexivity|]. discriminate.
Qed.

(** ** Substrings and search *)

Lemma prefix_iff (a s : string) :
  prefix a s = true <-> exists after, s = a ++ after.
Proof.
  revert s. induction a as [|c a IH]; intros s; simpl.
  - destruct s; split; intros; try reflexivity; eexists; reflexivity.
  - destruct s as [|c' s]; simpl.
    + split; [discriminate | intros [after H]; discriminate H].
    + destruct (ascii_dec c c') as [->|Hne].
      * rewrite IH. split; intros [after H]; exists after; congruence.
      * split; [discriminate | intros [after H]; congruence].
Qed.

(** [sub in s] decides "sub is a substring of s". *)
Lemma contains_iff (sub s : string) :
  PyStr.contains sub s = true <-> is_substring sub s.
Proof.
  unfold is_substring. split.
  - induction s as [|c s IH]; cbn [PyStr.contains].
    + destruct (prefix sub "") eqn:E; [|discriminate].
      intros _. apply prefix_iff in E. destruct E as [after E].
      exists "", after. exact E.
    + destruct (prefix sub (String c s)) eqn:E.
      * intros _. apply prefix_iff in E. destruct E as [after E].
        exists "", after. exact E.
      * intros H. destruct (IH H) as [before [after E']].
        exists (String c before), after. simpl. rewrite E'. reflexivity.
  - intros [before [after E]]. revert s E.
    induction before as [|c before IH]; intros s E; simpl in E.
    + assert (Hp : prefix sub s = true) by (apply prefix_iff; exists after; exact E).
      destruct s; cbn [PyStr.contains]; rewrite Hp; reflexivity.
    + subst s. cbn [PyStr.contains].
      destruct (prefix sub (String c (before ++ sub ++ after))); [reflexivity|].
      apply IH. reflexivity.
Qed.

Lemma contains_empty (s : string) : PyStr.contains "" s = true.
Proof. destruct s; reflexivity. Qed.

Lemma search_match_iff (term member_id : string) (m : Member.t) :
  search_match (PyStr.lower term) member_id m = true <-> term_matches term member_id m.
Proof.
  unfold search_match, term_matches.
  rewrite !orb_true_iff, !contains_iff. tauto.
Qed.

(** The loop of [search_members] keeps, in order, the items that match. *)
Lemma search_loop (term : string) (items : store) (results : list Member.t) :
  fold_left
    (fun results item =>
       let '(member_id, member_data) := item in
       if search_match term member_id member_data
       then (results ++ [Member.with_MemberID member_id member_data])%list
       else results)
    items results
  = (results ++
     map (fun item => Member.with_MemberID (fst item) (snd item))
         (filter (fun item => search_match term (fst item) (snd item)) items))%list.
Proof.
  revert results. induction items as [|[member_id member_data] rest IH];
    intros results; simpl.
  - rewrite app_nil_r. reflexivity.
  - rewrite IH. destruct (search_match term member_id member_data); simpl.
    + rewrite <- app_assoc. reflexivity.
    + reflexivity.
Qed.

Lemma search_members_filter (self : ThriftManager) (term : string) :
  search_members self term =
  map (fun item => Member.with_MemberID (fst item) (snd item))
      (filter (fun item => search_match (PyStr.lower term) (fst item) (snd item))
              (data self)).
Proof. unfold search_members. rewrite search_loop. reflexivity. Qed.




(** ** The summary panel *)

Lemma opening_balance_read (member : Member.t) :
  get_or (Opening.ThriftBalance (get_or (Member.OpeningBalance member) Opening.empty))
         (PyInt 0)
  = opening_thrift_balance member.
Proof.
  unfold opening_thrift_balance. destruct (Member.OpeningBalance member); reflexivity.
Qed.

(** With at least one transaction the panel computes the five figures, or
    raises where one of the sums does. *)
Lemma display_summary_panel_nonempty (member : Member.t) (ts : list Transaction.t) :
  Member.ThriftRecords member = Some ts -> ts <> [] ->
  display_summary_panel member =
  (tr <- sum_recovery ts ;;
   i108 <- interest_at_rate 10.8 ts ;;
   i85 <- interest_at_rate 8.5 ts ;;
   gi <- py_add i108 i85 ;;
   b <- py_add (opening_thrift_balance member) tr ;;
   fb <- py_add b gi ;;
   Returned (Some {| total_recovery := tr; interest_108 := i108; interest_85 := i85;
                     grand_interest := gi; final_balance := fb |})).
Proof.
  intros Hts Hne. unfold display_summary_panel. rewrite Hts. simpl get_or.
  destruct ts as [|t ts]; [congruence|].
  rewrite opening_balance_read. reflexivity.
Qed.





(** * Further properties *)

(** ** Keys and size of the store *)

Lemma dict_contains_keys {V : Type} (k : string) (d : dict V) :
  dict_contains k d = true <-> In k (keys d).
Proof.
  unfold dict_contains, keys. induction d as [|[k' v] rest IH]; simpl.
  - split; [discriminate | intros []].
  - destruct (String.eqb k' k) eqn:E.
    + apply String.eqb_eq in E. split; [intros _; left; exact E | reflexivity].
    + apply String.eqb_neq in E. rewrite IH. split; [right; assumption|].
      intros [H|H]; [congruence | exact H].
Qed.

Lemma dict_set_keys {V : Type} (k : string) (v : V) (d : dict V) :
  keys (dict_set k v d) = if dict_contains k d then keys d else (keys d ++ [k])%list.
Proof.
  destruct (dict_contains k d) eqn:E.
  - apply dict_set_present_keys. exact E.
  - rewrite (dict_set_absent k v d E). unfold keys. rewrite map_app. reflexivity.
Qed.

Lemma dict_set_keys_NoDup {V : Type} (k : string) (v : V) (d : dict V) :
  NoDup (keys d) -> NoDup (keys (dict_set k v d)).
Proof.
  intros Hd. rewrite dict_set_keys. destruct (dict_contains k d) eqn:E; [exact Hd|].
  apply NoDup_app.
  - exact Hd.
  - constructor; [intros [] | constructor].
  - intros x Hx [Hk|[]]. subst x. apply dict_contains_keys in Hx. congruence.
Qed.

Lemma dict_set_length {V : Type} (k : string) (v : V) (d : dict V) :
  List.length (dict_set k v d) =
  if dict_contains k d then List.length d else S (List.length d).
Proof.
  rewrite <- !(length_map fst). fold (keys (dict_set k v d)). fold (keys d).
  rewrite dict_set_keys. destruct (dict_contains k d); [reflexivity|].
  rewrite length_app. simpl. lia.
Qed.

(** A key that is unique in the mapping is looked up where it stands. *)
Lemma dict_get_In {V : Type} (k : string) (v : V) (d : dict V) :
  NoDup (keys d) -> In (k, v) d -> dict_get k d = Some v.
Proof.
  unfold keys. induction d as [|[k' v'] rest IH]; simpl; intros Hd Hin; [contradiction|].
  inversion Hd as [|? ? Hnot Hrest]; subst.
  destruct Hin as [H|H].
  - inversion H; subst. rewrite String.eqb_refl. reflexivity.
  - destruct (String.eqb k' k) eqn:E.
    + apply String.eqb_eq in E. subst k'. exfalso. apply Hnot.
      apply (in_map fst) in H. exact H.
    + apply IH; assumption.
Qed.

Lemma dict_get_Some_In {V : Type} (k : string) (v : V) (d : dict V) :
  dict_get k d = Some v -> In (k, v) d.
Proof.
  induction d as [|[k' v'] rest IH]; simpl; [discriminate|].
  destruct (String.eqb k' k) eqn:E.
  - apply String.eqb_eq in E. intros H. inversion H; subst. left. reflexivity.
  - intros H. right. apply IH. exact H.
Qed.

(** What [add_transaction] does for a member that is in the store. *)
Lemma add_transaction_present (self : ThriftManager) (member_id : string)
    (member_data : Member.t) (transaction : Transaction.t) :
  dict_get member_id (data self) = Some member_data ->
  add_transaction self member_id transaction =
  (save_data
     {| data_file := data_file self;
        data := dict_set member_id
                  (Member.with_ThriftRecords
                     (get_or (Member.ThriftRecords member_data) [] ++ [transaction])%list
                     member_data)
                  (data self) |}, true).
Proof.
  intros Hget. unfold add_transaction. rewrite Hget.
  destruct member_data as [i n ms sc ob [records|]]; reflexivity.
Qed.

Lemma add_transaction_absent (self : ThriftManager) (member_id : string)
    (transaction : Transaction.t) :
  dict_get member_id (data self) = None ->
  add_transaction self member_id transaction = (self, false).
Proof. intros Hget. unfold add_transaction. rewrite Hget. reflexivity. Qed.

(** X1. Every operation that changes the mapping writes the whole mapping:
    a manager constructed from the file afterwards is the manager the
    operation left, for [add_member], [update_member], the "Clear All Data"
    button and a successful [add_transaction]; a refused [add_transaction]
    writes nothing. *)
Theorem restart_after_mutation
    (self : ThriftManager) (member_id : string) (m : Member.t) (t : Transaction.t) :
  init (data_file (add_member self member_id m)) = Returned (add_member self member_id m)
  /\ init (data_file (update_member self member_id m)) =
     Returned (update_member self member_id m)
  /\ init (data_file (clear_all_data self)) = Returned (clear_all_data self)
  /\ data (clear_all_data self) = []
  /\ (forall self' added,
        add_transaction self member_id t = (self', added) ->
        if added then init (data_file self') = Returned self'
        else self' = self).
Proof.
  repeat split.
  intros self' added Hadd.
  destruct (dict_get member_id (data self)) as [member_data|] eqn:Hget.
  - rewrite (add_transaction_present _ _ _ _ Hget) in Hadd.
    inversion Hadd; subst. reflexivity.
  - rewrite (add_transaction_absent _ _ _ Hget) in Hadd.
    inversion Hadd; subst. reflexivity.
Qed.

(** X2. Lookup after insertion: [get_member] returns the record that
    [add_member] or [update_member] stored under the id and is unchanged for
    every other id; for an id that is not in the store it returns the empty
    dictionary; and [update_member] on an id that is not in the store adds
    the member at the end of the mapping. *)
Theorem get_member_after_add
    (self : ThriftManager) (member_id : string) (m : Member.t) :
  get_member (add_member self member_id m) member_id = m
  /\ get_member (update_member self member_id m) member_id = m
  /\ (forall other, other <> member_id ->
        get_member (add_member self member_id m) other = get_member self other
        /\ get_member (update_member self member_id m) other = get_member self other)
  /\ (dict_contains member_id (data self) = false ->
        get_member self member_id = Member.empty
        /\ data (update_member self member_id m) = (data self ++ [(member_id, m)])%list).
Proof.
  unfold get_member. split; [|split; [|split]].
  - simpl. rewrite dict_get_set_same. reflexivity.
  - simpl. rewrite dict_get_set_same. reflexivity.
  - intros other Hne. simpl. rewrite (dict_get_set_other _ _ _ _ Hne). split; reflexivity.
  - intros Habsent. split.
    + unfold dict_contains in Habsent.
      destruct (dict_get member_id (data self)); [discriminate | reflexivity].
    + simpl. apply dict_set_absent. exact Habsent.
Qed.

Lemma get_member_after_add_witness :
  get_member sample_manager "no such id" = Member.empty
  /\ data (update_member sample_manager "2001" Member.empty) =
     [("1070135", sample_member); ("2001", Member.empty)]
  /\ get_member (add_member sample_manager "2001" Member.empty) "1070135" = sample_member.
Proof.
  destruct (get_member_after_add sample_manager "no such id" Member.empty)
    as [_ [_ [_ Habsent]]].
  destruct (get_member_after_add sample_manager "2001" Member.empty)
    as [_ [_ [Hother Hnew]]].
  split; [apply Habsent; reflexivity|]. split.
  - apply Hnew. reflexivity.
  - rewrite (proj1 (Hother "1070135" ltac:(discriminate))). reflexivity.
Defined.

(** X3. Member ids stay unique and members are never lost: [add_member]
    leaves the number of members unchanged when the id is in the store and
    raises it by one otherwise, [add_transaction] keeps the ids and their
    order whether it succeeds or not, and both keep a mapping without
    repeated ids free of them. *)
Theorem member_ids_unique
    (self : ThriftManager) (member_id : string) (m : Member.t) (t : Transaction.t) :
  NoDup (keys (data self)) ->
  NoDup (keys (data (add_member self member_id m)))
  /\ List.length (data (add_member self member_id m)) =
     (if dict_contains member_id (data self) then List.length (data self)
      else S (List.length (data self)))
  /\ keys (data (fst (add_transaction self member_id t))) = keys (data self)
  /\ (forall form, NoDup (keys (data (fst (add_member_page self form))))).
Proof.
  intros Hd. split; [|split; [|split]].
  - simpl. apply dict_set_keys_NoDup. exact Hd.
  - simpl. apply dict_set_length.
  - destruct (dict_get member_id (data self)) as [member_data|] eqn:Hget.
    + rewrite (add_transaction_present _ _ _ _ Hget). simpl.
      apply dict_set_present_keys. apply dict_contains_get. eauto.
    + rewrite (add_transaction_absent _ _ _ Hget). reflexivity.
  - intros form. unfold add_member_page.
    destruct (negb _); [exact Hd|].
    destruct (dict_contains _ _); [exact Hd|].
    simpl. apply dict_set_keys_NoDup. exact Hd.
Qed.

Lemma member_ids_unique_witness :
  NoDup (keys (data (add_member sample_manager "1070135" Member.empty)))
  /\ List.length (data (add_member sample_manager "1070135" Member.empty)) = 1%nat
  /\ List.length (data (add_member sample_manager "2001" Member.empty)) = 2%nat.
Proof.
  assert (Hd : NoDup (keys (data sample_manager))).
  { simpl. constructor; [intros [] | constructor]. }
  destruct (member_ids_unique sample_manager "1070135" Member.empty sample_transaction Hd)
    as [Hnodup [Hlen _]].
  destruct (member_ids_unique sample_manager "2001" Member.empty sample_transaction Hd)
    as [_ [Hlen' _]].
  split; [exact Hnodup|]. split; [exact Hlen | exact Hlen'].
Defined.

(** X4. Transactions accumulate in entry order: two successive
    [add_transaction] calls for a member of the store both succeed and leave
    the earlier records followed by the two transactions, in that order, on
    file as in memory. *)
Theorem add_transaction_twice
    (self : ThriftManager) (member_id : string) (member_data : Member.t)
    (t1 t2 : Transaction.t) :
  dict_get member_id (data self) = Some member_data ->
  exists self1 self2,
    add_transaction self member_id t1 = (self1, true)
    /\ add_transaction self1 member_id t2 = (self2, true)
    /\ option_map Member.ThriftRecords (dict_get member_id (data self2)) =
       Some (Some (get_or (Member.ThriftRecords member_data) [] ++ [t1; t2])%list)
    /\ (forall other, other <> member_id ->
          dict_get other (data self2) = dict_get other (data self))
    /\ persisted self2.
Proof.
  intros Hget.
  eexists. eexists. split; [apply (add_transaction_present _ _ _ _ Hget)|].
  split.
  - apply add_transaction_present. simpl. apply dict_get_set_same.
  - simpl. split; [|split].
    + rewrite dict_get_set_same. simpl. rewrite <- app_assoc. reflexivity.
    + intros other Hne. rewrite !(dict_get_set_other _ _ _ _ Hne). reflexivity.
    + reflexivity.
Qed.

Lemma add_transaction_twice_witness :
  exists self1 self2,
    add_transaction bare_manager "2001" sample_transaction = (self1, true)
    /\ add_transaction self1 "2001" sample_transaction = (self2, true)
    /\ option_map Member.ThriftRecords (dict_get "2001" (data self2)) =
       Some (Some [sample_transaction; sample_transaction])
    /\ persisted self2.
Proof.
  destruct (add_transaction_twice bare_manager "2001" _ sample_transaction
              sample_transaction eq_refl) as [self1 [self2 [H1 [H2 [H3 [_ H4]]]]]].
  exists self1, self2. repeat split; assumption.
Defined.

Lemma restart_after_mutation_witness :
  init (data_file (fst (add_transaction sample_manager "1070135" sample_transaction)))
  = Returned (fst (add_transaction sample_manager "1070135" sample_transaction))
  /\ fst (add_transaction sample_manager "9999" sample_transaction) = sample_manager.
Proof.
  pose proof (restart_after_mutation sample_manager "1070135" Member.empty
                sample_transaction) as [_ [_ [_ [_ Hpresent]]]].
  pose proof (restart_after_mutation sample_manager "9999" Member.empty
                sample_transaction) as [_ [_ [_ [_ Habsent]]]].
  split.
  - apply (Hpresent _ true). reflexivity.
  - apply (Habsent _ false). reflexivity.
Defined.

(** ** Start-up and the mock data loader *)

Lemma init_basic_sample_data_present (manager : ThriftManager) :
  dict_contains "1070135" (data manager) = true ->
  init_basic_sample_data manager = manager.
Proof. intros H. unfold init_basic_sample_data. rewrite H. reflexivity. Qed.

Lemma init_basic_sample_data_absent (manager : ThriftManager) :
  dict_contains "1070135" (data manager) = false ->
  init_basic_sample_data manager = add_member manager "1070135" sample_member.
Proof. intros H. unfold init_basic_sample_data. rewrite H. reflexivity. Qed.

(** X5. The fallback record is added once and never replaces a member:
    [init_basic_sample_data] leaves a store that has the id "1070135"
    exactly as it is, adds the sample record (and saves) otherwise, leaves
    every other member alone, and applying it twice is applying it once. *)
Theorem init_basic_sample_data_once (manager : ThriftManager) :
  (forall m, dict_get "1070135" (data manager) = Some m ->
     init_basic_sample_data manager = manager)
  /\ (dict_get "1070135" (data manager) = None ->
        data (init_basic_sample_data manager) =
        (data manager ++ [("1070135", sample_member)])%list
        /\ persisted (init_basic_sample_data manager))
  /\ (forall other, other <> "1070135" ->
        dict_get other (data (init_basic_sample_data manager)) =
        dict_get other (data manager))
  /\ init_basic_sample_data (init_basic_sample_data manager) =
     init_basic_sample_data manager.
Proof.
  split; [|split; [|split]].
  - intros m Hget. apply init_basic_sample_data_present.
    apply dict_contains_get. eauto.
  - intros Hget.
    assert (Habsent : dict_contains "1070135" (data manager) = false).
    { unfold dict_contains. rewrite Hget. reflexivity. }
    rewrite (init_basic_sample_data_absent _ Habsent). split; [|reflexivity].
    simpl. apply dict_set_absent. exact Habsent.
  - intros other Hne.
    destruct (dict_contains "1070135" (data manager)) eqn:E.
    + rewrite (init_basic_sample_data_present _ E). reflexivity.
    + rewrite (init_basic_sample_data_absent _ E). simpl.
      apply dict_get_set_other. exact Hne.
  - destruct (dict_contains "1070135" (data manager)) eqn:E.
    + rewrite !(init_basic_sample_data_present _ E). reflexivity.
    + rewrite (init_basic_sample_data_absent _ E).
      apply init_basic_sample_data_present.
      apply dict_contains_get. exists sample_member. simpl. apply dict_get_set_same.
Qed.

Lemma init_basic_sample_data_once_witness :
  init_basic_sample_data
    (add_member empty_manager "1070135" Member.empty) =
  add_member empty_manager "1070135" Member.empty
  /\ data (init_basic_sample_data bare_manager) =
     (data bare_manager ++ [("1070135", sample_member)])%list.
Proof.
  split.
  - apply (proj1 (init_basic_sample_data_once _) Member.empty). reflexivity.
  - apply (proj1 (proj2 (init_basic_sample_data_once bare_manager))). reflexivity.
Defined.

(** X6. A saved store with at least one member survives a restart: the
    first two statements of [main] give back exactly that mapping and leave
    the document alone, whatever the mock data file holds. *)
Theorem startup_keeps_saved_store (d : store) (mock : mock_file) :
  d <> [] ->
  startup (Document (PDict d)) mock =
  Returned {| data_file := Document (PDict d); data := d |}.
Proof.
  intros Hd. unfold startup, init. simpl. unfold load_mock_data. simpl.
  destruct d as [|item rest]; [congruence | reflexivity].
Qed.

Lemma startup_keeps_saved_store_witness :
  startup (Document (PDict (data bare_manager)))
          (MockList [Member.with_MemberID "1070135" sample_member]) =
  Returned bare_manager.
Proof.
  apply (startup_keeps_saved_store (data bare_manager)). discriminate.
Defined.

(** X7. Without a usable mock file, starting on a missing document, an empty
    mapping or a document whose top level is not a mapping ends with the
    sample record as the only member, and the document is overwritten with
    that mapping: what a non-mapping document held is gone. *)
Theorem startup_falls_back_to_sample (file : document) (mock : mock_file) :
  load_data file = Returned [] ->
  mock = MockMissing \/ mock = MockUnusable ->
  startup file mock =
  Returned {| data_file := Document (PDict [("1070135", sample_member)]);
              data := [("1070135", sample_member)] |}.
Proof.
  intros Hload Hmock. unfold startup, init. rewrite Hload. simpl.
  destruct Hmock as [-> | ->]; reflexivity.
Qed.

Lemma startup_falls_back_to_sample_witness :
  startup (Document (PList [JObject [("MemberID", JString "42")]])) MockMissing =
  Returned sample_manager
  /\ startup NoFile MockUnusable =
     Returned {| data_file := Document (PDict [("1070135", sample_member)]);
                 data := [("1070135", sample_member)] |}.
Proof.
  split.
  - apply startup_falls_back_to_sample; [reflexivity | left; reflexivity].
  - apply startup_falls_back_to_sample; [reflexivity | right; reflexivity].
Defined.

(** The conversion loop on a list whose elements all carry an id. *)
Lemma import_members_finishes (items : list Member.t) (d : store) :
  (forall m, In m items -> Member.MemberID m <> None) ->
  snd (import_members items d) = true
  /\ (NoDup (keys d) -> NoDup (keys (fst (import_members items d))))
  /\ (forall k, In k (keys (fst (import_members items d))) <->
                In k (keys d) \/ exists m, In m items /\ Member.MemberID m = Some k)
  /\ (List.length (fst (import_members items d)) <= List.length d + List.length items)%nat.
Proof.
  revert d. induction items as [|member rest IH]; intros d Hids; simpl.
  - split; [reflexivity|]. split; [auto|]. split; [|lia].
    intros k. split; [auto | intros [H|[m [[] _]]]; exact H].
  - destruct (Member.MemberID member) as [member_id|] eqn:E.
    + destruct (IH (dict_set member_id (pop_MemberID member) d)) as [Hfin [Hnd [Hkeys Hlen]]].
      { intros m Hm. apply Hids. right. exact Hm. }
      split; [exact Hfin|]. split; [|split].
      * intros Hd. apply Hnd. apply dict_set_keys_NoDup. exact Hd.
      * intros k. rewrite Hkeys. rewrite dict_set_keys.
        destruct (dict_contains member_id d) eqn:Ec.
        -- split.
           ++ intros [H|[m [Hm Hk]]]; [left; exact H|].
              right. exists m. split; [right; exact Hm | exact Hk].
           ++ intros [H|[m [[Hm|Hm] Hk]]].
              ** left. exact H.
              ** subst m. left. rewrite E in Hk. inversion Hk; subst.
                 apply dict_contains_keys. exact Ec.
              ** right. exists m. split; assumption.
        -- rewrite in_app_iff. simpl. split.
           ++ intros [[H|[H|[]]]|[m [Hm Hk]]].
              ** left. exact H.
              ** right. exists member. subst k. split; [left; reflexivity | exact E].
              ** right. exists m. split; [right; exact Hm | exact Hk].
           ++ intros [H|[m [[Hm|Hm] Hk]]].
              ** left. left. exact H.
              ** subst m. left. right. left. rewrite E in Hk. inversion Hk. reflexivity.
              ** right. exists m. split; assumption.
      * rewrite dict_set_length in Hlen. destruct (dict_contains member_id d); lia.
    + exfalso. apply (Hids member); [left; reflexivity | exact E].
Qed.

(** X8. Loading a mock file whose elements all carry a [MemberID] into an
    empty store succeeds: the ids stored are exactly the ids listed, without
    repetition, the mapping is saved, and the sidebar reports the number of
    list elements, which the number of members stored never exceeds. *)
Theorem load_mock_data_imports (manager : ThriftManager) (items : list Member.t) :
  data manager = [] ->
  (forall m, In m items -> Member.MemberID m <> None) ->
  exists manager',
    load_mock_data manager (MockList items) = (manager', LoadedMembers (List.length items))
    /\ persisted manager'
    /\ NoDup (keys (data manager'))
    /\ (forall k, In k (keys (data manager')) <->
                  exists m, In m items /\ Member.MemberID m = Some k)
    /\ (List.length (data manager') <= List.length items)%nat.
Proof.
  intros Hempty Hids. unfold load_mock_data. rewrite Hempty.
  destruct (import_members_finishes items [] Hids) as [Hfin [Hnd [Hkeys Hlen]]].
  destruct (import_members items []) as [d finished]. simpl in *. subst finished.
  eexists. split; [reflexivity|]. simpl.
  split; [reflexivity|]. split; [apply Hnd; constructor|]. split; [|exact Hlen].
  intros k. rewrite Hkeys. split; [intros [[]|H]; exact H | intros H; right; exact H].
Qed.

Lemma load_mock_data_imports_witness :
  exists manager',
    load_mock_data empty_manager
      (MockList [Member.with_MemberID "7" sample_member;
                 Member.with_MemberID "7" Member.empty]) = (manager', LoadedMembers 2)
    /\ persisted manager'
    /\ (List.length (data manager') <= 2)%nat.
Proof.
  destruct (load_mock_data_imports empty_manager
              [Member.with_MemberID "7" sample_member;
               Member.with_MemberID "7" Member.empty] eq_refl)
    as [manager' [Hload [Hp [_ [_ Hlen]]]]].
  - intros m [<-|[<-|[]]]; discriminate.
  - exists manager'. repeat split; assumption.
Defined.

(** The conversion loop stops at the first element without an id and keeps
    what it has stored until then. *)
Lemma import_members_stops (good : list Member.t) (bad : Member.t)
    (rest : list Member.t) (d : store) :
  (forall m, In m good -> Member.MemberID m <> None) ->
  Member.MemberID bad = None ->
  import_members (good ++ bad :: rest) d = (fst (import_members good d), false).
Proof.
  revert d. induction good as [|member good IH]; intros d Hids Hbad; simpl.
  - rewrite Hbad. reflexivity.
  - destruct (Member.MemberID member) as [member_id|] eqn:E.
    + apply IH; [|exact Hbad]. intros m Hm. apply Hids. right. exact Hm.
    + exfalso. apply (Hids member); [left; reflexivity | exact E].
Qed.

(** X9. An import that fails part-way is not rolled back. When an element
    of the mock list has no [MemberID], the members read before it stay in
    the mapping and the fallback runs on top of them: if "1070135" is not
    among them the sample record is added and everything is saved; if it
    is, nothing is saved, and the document stays as it was while the mapping
    holds the members read. *)
Theorem load_mock_data_partial
    (manager : ThriftManager) (good : list Member.t) (bad : Member.t)
    (rest : list Member.t) :
  data manager = [] ->
  (forall m, In m good -> Member.MemberID m <> None) ->
  Member.MemberID bad = None ->
  let read := fst (import_members good []) in
  load_mock_data manager (MockList (good ++ bad :: rest)) =
  (init_basic_sample_data {| data_file := data_file manager; data := read |}, LoadError)
  /\ (dict_contains "1070135" read = true ->
        fst (load_mock_data manager (MockList (good ++ bad :: rest))) =
        {| data_file := data_file manager; data := read |})
  /\ (dict_contains "1070135" read = false ->
        data (fst (load_mock_data manager (MockList (good ++ bad :: rest)))) =
        (read ++ [("1070135", sample_member)])%list
        /\ persisted (fst (load_mock_data manager (MockList (good ++ bad :: rest))))).
Proof.
  intros Hempty Hids Hbad read.
  assert (Hload : load_mock_data manager (MockList (good ++ bad :: rest)) =
          (init_basic_sample_data {| data_file := data_file manager; data := read |},
           LoadError)).
  { unfold load_mock_data. rewrite Hempty.
    rewrite (import_members_stops good bad rest [] Hids Hbad). reflexivity. }
  split; [exact Hload|]. rewrite Hload. simpl fst. split.
  - intros Hin.
    apply (init_basic_sample_data_present
             {| data_file := data_file manager; data := read |} Hin).
  - intros Hout.
    rewrite (init_basic_sample_data_absent
               {| data_file := data_file manager; data := read |} Hout).
    split; [|reflexivity].
    simpl. apply dict_set_absent. exact Hout.
Qed.

Lemma load_mock_data_partial_witness :
  fst (load_mock_data empty_manager
         (MockList [Member.with_MemberID "1070135" Member.empty; Member.empty;
                    Member.with_MemberID "8" sample_member])) =
  {| data_file := NoFile; data := [("1070135", Member.empty)] |}
  /\ data (fst (load_mock_data empty_manager
                  (MockList [Member.with_MemberID "8" Member.empty; Member.empty]))) =
     [("8", Member.empty); ("1070135", sample_member)].
Proof.
  split.
  - apply (proj1 (proj2 (load_mock_data_partial empty_manager
             [Member.with_MemberID "1070135" Member.empty] Member.empty
             [Member.with_MemberID "8" sample_member] eq_refl
             ltac:(intros m [<-|[]]; discriminate) eq_refl))).
    reflexivity.
  - apply (proj2 (proj2 (load_mock_data_partial empty_manager
             [Member.with_MemberID "8" Member.empty] Member.empty [] eq_refl
             ltac:(intros m [<-|[]]; discriminate) eq_refl))).
    reflexivity.
Defined.

(** ** Export *)

Lemma export_loop (items : store) (exported : list Member.t) :
  fold_left
    (fun exported item => (exported ++ [export_record (fst item) (snd item)])%list)
    items exported
  = (exported ++ map (fun item => export_record (fst item) (snd item)) items)%list.
Proof.
  revert exported. induction items as [|item rest IH]; intros exported; simpl.
  - rewrite app_nil_r. reflexivity.
  - rewrite IH. rewrite <- app_assoc. reflexivity.
Qed.

Lemma pop_with_MemberID (member_id : string) (m : Member.t) :
  Member.MemberID m = None -> pop_MemberID (Member.with_MemberID member_id m) = m.
Proof. destruct m as [i n ms sc ob tr]. simpl. intros ->. reflexivity. Qed.

(** Re-importing exported records appends them to a mapping they do not
    clash with. *)
Lemma import_exported (items d : store) :
  keys_outside items ->
  NoDup (keys d ++ keys items) ->
  import_members (map (fun item => export_record (fst item) (snd item)) items) d =
  ((d ++ items)%list, true).
Proof.
  revert d. induction items as [|[member_id m] rest IH]; intros d Hout Hnd; simpl.
  - rewrite app_nil_r. reflexivity.
  - assert (Hm : Member.MemberID m = None) by (apply (Hout member_id); left; reflexivity).
    assert (He : export_record member_id m = Member.with_MemberID member_id m)
      by (unfold export_record; rewrite Hm; reflexivity).
    rewrite He. cbn [import_members].
    change (Member.MemberID (Member.with_MemberID member_id m)) with (Some member_id).
    cbv iota. rewrite (pop_with_MemberID member_id m Hm).
    assert (Habsent : dict_contains member_id d = false).
    { destruct (dict_contains member_id d) eqn:E; [|reflexivity].
      apply dict_contains_keys in E. exfalso.
      apply NoDup_remove_2 in Hnd. apply Hnd. apply in_or_app. left. exact E. }
    rewrite (dict_set_absent _ _ _ Habsent). rewrite IH.
    + rewrite <- app_assoc. reflexivity.
    + intros k v Hin. apply (Hout k). right. exact Hin.
    + unfold keys in *. rewrite map_app. simpl. rewrite <- app_assoc. exact Hnd.
Qed.

(** X10. Export and import are inverse: for a non-empty store with distinct
    ids whose records carry no [MemberID] key of their own, the exported
    list has one element per member, each with its id re-attached, and
    "Reload Mock Data" on that list gives back exactly the same mapping, in
    the same order, saved. *)
Theorem export_then_reload (manager : ThriftManager) :
  data manager <> [] ->
  NoDup (keys (data manager)) ->
  keys_outside (data manager) ->
  exists exported,
    export_data manager = Some exported
    /\ map Member.MemberID exported = map Some (keys (data manager))
    /\ reload_mock_data manager (MockList exported) =
       ({| data_file := Document (PDict (data manager)); data := data manager |},
        LoadedMembers (List.length (data manager))).
Proof.
  intros Hne Hnd Hout.
  exists (map (fun item => export_record (fst item) (snd item)) (data manager)).
  split; [|split].
  - unfold export_data. destruct (data manager) as [|item rest] eqn:E; [congruence|].
    rewrite export_loop. reflexivity.
  - unfold keys. rewrite !map_map. apply map_ext_in. intros [member_id m] Hin. simpl.
    unfold export_record. rewrite (Hout member_id m Hin). reflexivity.
  - unfold reload_mock_data, load_mock_data. simpl data.
    rewrite (import_exported (data manager) [] Hout Hnd). simpl.
    rewrite length_map. reflexivity.
Qed.

Lemma export_then_reload_witness :
  exists exported,
    export_data sample_manager = Some exported
    /\ map Member.MemberID exported = [Some "1070135"]
    /\ reload_mock_data sample_manager (MockList exported) =
       (sample_manager, LoadedMembers 1).
Proof.
  destruct (export_then_reload sample_manager) as [exported [He [Hids Hre]]].
  - discriminate.
  - simpl. constructor; [intros [] | constructor].
  - intros member_id m [H|[]]. inversion H; subst. reflexivity.
  - exists exported. split; [exact He|]. split; [exact Hids | exact Hre].
Defined.

(** ** The add-transaction page *)

Lemma lstrip_cases (s : string) :
  (lstrip s = "" /\ forallb is_space (list_ascii_of_string s) = true)
  \/ (exists c rest, lstrip s = String c rest /\ is_space c = false
        /\ forallb is_space (list_ascii_of_string s) = false).
Proof.
  induction s as [|c s IH]; simpl.
  - left. split; reflexivity.
  - destruct (is_space c) eqn:E; simpl.
    + exact IH.
    + right. exists c, s. repeat split. exact E.
Qed.

Lemma rstrip_keeps_head (c : ascii) (rest : string) :
  is_space c = false -> rstrip (String c rest) <> "".
Proof.
  intros Hc. simpl. destruct (rstrip rest); [rewrite Hc|]; discriminate.
Qed.

(** [strip] leaves nothing exactly when every character is whitespace. *)
Lemma strip_empty_iff (s : string) :
  PyStr.truthy (strip s) = negb (forallb is_space (list_ascii_of_string s)).
Proof.
  unfold strip. destruct (lstrip_cases s) as [[-> ->]|[c [rest [-> [Hc ->]]]]].
  - reflexivity.
  - pose proof (rstrip_keeps_head c rest Hc) as Hne.
    destruct (rstrip (String c rest)); [congruence | reflexivity].
Qed.

Lemma member_options_named (d : store) :
  (forall member_id m, In (member_id, m) d -> Member.MemberName m <> None) ->
  exists options, member_options d = Done options.
Proof.
  induction d as [|[mid m] rest IH]; intros Hnames; simpl.
  - eexists. reflexivity.
  - destruct (Member.MemberName m) as [name|] eqn:E.
    + destruct IH as [options ->].
      { intros k v Hin. apply (Hnames k). right. exact Hin. }
      simpl. eexists. reflexivity.
    + exfalso. apply (Hnames mid m); [left; reflexivity | exact E].
Qed.

Lemma member_options_unnamed (d : store) :
  (exists member_id m, In (member_id, m) d /\ Member.MemberName m = None) ->
  member_options d = Fails (KeyError "MemberName").
Proof.
  induction d as [|[mid m] rest IH]; intros [k [v [Hin Hv]]]; simpl.
  - destruct Hin.
  - destruct (Member.MemberName m) as [name|] eqn:E; [|reflexivity].
    simpl. rewrite IH; [reflexivity|].
    destruct Hin as [H|H]; [inversion H; subst; congruence|].
    exists k, v. split; assumption.
Qed.

(** X11. The add-transaction page changes the store only when it reports
    success, and it reports success only for a selected member that is in
    the store and a recovery amount that is not [<= 0]: in every other case
    that returns, the manager is the one it was given. *)
Theorem add_transaction_page_guards
    (manager manager' : ThriftManager) (selected_member : string)
    (form : transaction_form) (message : transaction_message) :
  add_transaction_page manager selected_member form = Done (manager', message) ->
  (message = TransactionAdded
   /\ dict_contains selected_member (data manager) = true
   /\ (recovery_amount form <=? 0)%float = false
   /\ selected_member <> "")
  \/ (message <> TransactionAdded /\ manager' = manager).
Proof.
  unfold add_transaction_page.
  destruct (data manager) as [|item rest] eqn:Hdata.
  - intros H. inversion H; subst. right. split; [discriminate | reflexivity].
  - rewrite <- Hdata. destruct (member_options (data manager)) as [options|e];
      simpl; [|discriminate].
    destruct selected_member as [|c sel]; simpl.
    + intros H. inversion H; subst. right. split; [discriminate | reflexivity].
    + destruct (recovery_amount form <=? 0)%float eqn:Hrec.
      * intros H. inversion H; subst. right. split; [discriminate | reflexivity].
      * destruct (calculate_interest _ _ _) as [interest_calc|e]; simpl; [|discriminate].
        destruct (dict_get (String c sel) (data manager)) as [member_data|] eqn:Hget.
        -- rewrite (add_transaction_present _ _ _ _ Hget).
           intros H. inversion H; subst. left.
           split; [reflexivity|]. split; [|split; [reflexivity | discriminate]].
           apply dict_contains_get. eauto.
        -- rewrite (add_transaction_absent _ _ _ Hget).
           intros H. inversion H; subst. right. split; [discriminate | reflexivity].
Qed.

Lemma add_transaction_page_guards_witness :
  (RecoveryNotPositive = TransactionAdded
   /\ dict_contains "1070135" (data sample_manager) = true
   /\ (recovery_amount negative_recovery_form <=? 0)%float = false
   /\ "1070135" <> "")
  \/ (RecoveryNotPositive <> TransactionAdded /\ sample_manager = sample_manager).
Proof.
  apply (add_transaction_page_guards sample_manager sample_manager "1070135"
           negative_recovery_form RecoveryNotPositive).
  vm_compute. reflexivity.
Defined.

(** X12. A submitted transaction is stored as the engine computed it. For a
    store whose members all have a name, a selected member of the store, a
    recovery amount that is not [<= 0] and a [days_held] that converts to a
    float, the page succeeds and appends one transaction to the member's
    records, on file as in memory: its rate, amount and band are those of
    [calculate_interest], and it is "Monthly" with no receipt number when
    the receipt text is empty or all whitespace, "Bulk" with the stripped
    receipt text otherwise. *)
Theorem add_transaction_page_adds
    (manager : ThriftManager) (selected_member : string) (form : transaction_form)
    (member_data : Member.t) (days : float) :
  (forall member_id m, In (member_id, m) (data manager) -> Member.MemberName m <> None) ->
  selected_member <> "" ->
  dict_get selected_member (data manager) = Some member_data ->
  (recovery_amount form <=? 0)%float = false ->
  PyFloat.float_of_int (days_held form) = Returned days ->
  let blank := forallb is_space (list_ascii_of_string (receipt_number form)) in
  let rate := tier_rate (recovery_amount form) in
  exists manager' t,
    add_transaction_page manager selected_member form = Done (manager', TransactionAdded)
    /\ option_map Member.ThriftRecords (dict_get selected_member (data manager')) =
       Some (Some (get_or (Member.ThriftRecords member_data) [] ++ [t])%list)
    /\ persisted manager'
    /\ Transaction.Recovery t = Some (PyFloat (recovery_amount form))
    /\ Transaction.DaysHeld t = Some (days_held form)
    /\ Transaction.InterestRate t = Some (PyFloat rate)
    /\ Transaction.InterestAmount t =
       Some (PyFloat (interest_formula (recovery_amount form) rate days))
    /\ Transaction.InterestBand t = Some (f_percent rate)
    /\ Transaction.TransactionType t = Some (if blank then "Monthly" else "Bulk")
    /\ Transaction.ReceiptNumber t =
       Some (if blank then None else Some (strip (receipt_number form))).
Proof.
  intros Hnames Hsel Hget Hrec Hdays blank rate.
  destruct (member_options_named (data manager) Hnames) as [options Hoptions].
  pose proof (fun t => add_transaction_present manager selected_member member_data t Hget)
    as Hadd.
  unfold add_transaction_page.
  destruct (data manager) as [|item rest] eqn:Hdata; [discriminate Hget|].
  rewrite <- Hdata in Hoptions, Hadd |- *. rewrite Hoptions. simpl.
  destruct selected_member as [|c sel]; [congruence|]. simpl PyStr.truthy. cbv iota.
  simpl negb. cbv iota. rewrite Hrec.
  rewrite (calculate_interest_returns _ _ _ _ Hdays). simpl.
  rewrite Hadd.
  eexists. eexists. split; [reflexivity|]. simpl.
  rewrite dict_get_set_same. simpl.
  split; [reflexivity|]. split; [reflexivity|].
  unfold new_transaction. simpl. rewrite !strip_empty_iff. fold blank. fold rate.
  destruct blank; repeat split; reflexivity.
Qed.

Lemma add_transaction_page_adds_witness :
  exists manager' t,
    add_transaction_page sample_manager "1070135" blank_receipt_form =
    Done (manager', TransactionAdded)
    /\ option_map (fun m => List.length (get_or (Member.ThriftRecords m) []))
         (dict_get "1070135" (data manager')) = Some 2%nat
    /\ Transaction.TransactionType t = Some "Monthly"
    /\ Transaction.ReceiptNumber t = Some None
    /\ Transaction.InterestAmount t = Some (PyFloat 349.32).
Proof.
  destruct (add_transaction_page_adds sample_manager "1070135" blank_receipt_form
              sample_member 30%float)
    as [manager' [t [Hpage [Hrecords [_ [_ [_ [_ [Hamount [_ [Htype Hreceipt]]]]]]]]]]].
  - intros member_id m [H|[]]. inversion H; subst. discriminate.
  - discriminate.
  - reflexivity.
  - vm_compute. reflexivity.
  - vm_compute. reflexivity.
  - exists manager', t. split; [exact Hpage|]. split; [|split; [|split]].
    + destruct (dict_get "1070135" (data manager')) as [m|]; [|discriminate Hrecords].
      simpl in *. inversion Hrecords as [Hr]. rewrite Hr. reflexivity.
    + exact Htype.
    + exact Hreceipt.
    + rewrite Hamount. vm_compute. reflexivity.
Defined.

(** X13. One member without the key [MemberName] disables the
    add-transaction page for every member: whatever is selected and
    entered, building the select box raises [KeyError] and nothing is
    stored. *)
Theorem add_transaction_page_needs_names
    (manager : ThriftManager) (selected_member : string) (form : transaction_form) :
  (exists member_id m, In (member_id, m) (data manager) /\ Member.MemberName m = None) ->
  add_transaction_page manager selected_member form = Fails (KeyError "MemberName").
Proof.
  intros Hunnamed. pose proof (member_options_unnamed _ Hunnamed) as Hoptions.
  unfold add_transaction_page.
  destruct (data manager) as [|item rest] eqn:Hdata.
  - destruct Hunnamed as [k [v [[] _]]].
  - rewrite <- Hdata in Hoptions |- *. rewrite Hoptions. reflexivity.
Qed.

Lemma add_transaction_page_needs_names_witness :
  add_transaction_page (add_member sample_manager "2002" Member.empty) "1070135"
    blank_receipt_form = Fails (KeyError "MemberName").
Proof.
  apply add_transaction_page_needs_names.
  exists "2002", Member.empty. split; [right; left; reflexivity | reflexivity].
Defined.

(** ** Rate filters and the member view *)

(** No integer equals 10.8 or 8.5. *)
Lemma int_is_no_tier_rate (z : Z) :
  PyFloat.int_eq_float z 10.8 = false /\ PyFloat.int_eq_float z 8.5 = false.
Proof.
  unfold PyFloat.int_eq_float.
  change (Prim2SF 10.8) with (S754_finite false 6079859496950170 (-49)).
  change (Prim2SF 8.5) with (S754_finite false 4785074604081152 (-49)).
  cbv beta iota. change (0 <=? -49) with false. cbv iota.
  change (2 ^ (- -49)) with 562949953421312.
  split; apply Z.eqb_neq; lia.
Qed.

(** A float cannot equal both rates. *)
Lemma float_is_one_tier_rate (x : float) :
  PrimFloat.eqb x 10.8 = true -> PrimFloat.eqb x 8.5 = false.
Proof.
  rewrite !eqb_spec.
  change (Prim2SF 10.8) with (S754_finite false 6079859496950170 (-49)).
  change (Prim2SF 8.5) with (S754_finite false 4785074604081152 (-49)).
  unfold SFeqb, SFcompare.
  destruct (Prim2SF x) as [s|s| |s m e]; try discriminate.
  - destruct s; discriminate.
  - destruct s; [discriminate|].
    destruct (e ?= -49); try discriminate.
    destruct (Pos.compare_cont Eq m 6079859496950170) eqn:E; try discriminate.
    apply Pos.compare_eq in E. subst m. intros _. reflexivity.
Qed.

Lemma rate_is_exclusive (t : Transaction.t) :
  rate_is 10.8 t = true -> rate_is 8.5 t = false.
Proof.
  unfold rate_is. destruct (Transaction.InterestRate t) as [[z|x]|]; simpl.
  - rewrite (proj1 (int_is_no_tier_rate z)). discriminate.
  - apply float_is_one_tier_rate.
  - discriminate.
Qed.

Lemma filter_lengths_exclusive {A : Type} (p q : A -> bool) (l : list A) :
  (forall a, p a = true -> q a = false) ->
  (List.length (filter p l) + List.length (filter q l) <= List.length l)%nat.
Proof.
  intros Hpq. induction l as [|a l IH]; simpl; [lia|].
  destruct (p a) eqn:Ep.
  - rewrite (Hpq a Ep). simpl. lia.
  - destruct (q a); simpl; lia.
Qed.

(** X14. The rate tabs do not overlap: in the view of a member, the 10.8%
    and 8.5% tables are sub-lists of the full table in the same order, no
    transaction is in both, so that no interest amount is counted twice in
    the grand interest; the tables and the summary are shown exactly when
    the member has at least one transaction, and then the summary is never
    missing. *)
Theorem member_view_tabs (member : Member.t) (view : member_view) :
  display_member_details member = Done view ->
  (shown_transactions view = None <-> get_or (Member.ThriftRecords member) [] = [])
  /\ (forall tabs,
        shown_transactions view = Some tabs ->
        tab_all tabs = get_or (Member.ThriftRecords member) []
        /\ tab_108 tabs = filter (rate_is 10.8) (tab_all tabs)
        /\ tab_85 tabs = filter (rate_is 8.5) (tab_all tabs)
        /\ (forall t, In t (tab_108 tabs) -> rate_is 8.5 t = false)
        /\ (forall t, In t (tab_85 tabs) -> rate_is 10.8 t = false)
        /\ (List.length (tab_108 tabs) + List.length (tab_85 tabs)
            <= List.length (tab_all tabs))%nat
        /\ exists s, panel tabs = Some s
                     /\ display_summary_panel member = Returned (Some s)).
Proof.
  unfold display_member_details.
  destruct (Member.MemberID member) as [member_id|];
    cbn [subscript result_bind]; [|discriminate].
  destruct (get_or (Member.ThriftRecords member) []) as [|t ts] eqn:Hts.
  - cbn [result_bind]. intros H. inversion H; subst; cbn [shown_transactions].
    split; [tauto|]. discriminate.
  - destruct (display_summary_panel member) as [s|e] eqn:Hpanel;
      cbn [of_outcome result_bind]; [|discriminate].
    rewrite <- Hts.
    intros H. injection H as <-. cbn [shown_transactions]. split.
    + rewrite Hts. split; discriminate.
    + intros tabs Htabs. injection Htabs as <-. cbn [tab_all tab_108 tab_85 panel].
      split; [reflexivity|]. split; [reflexivity|]. split; [reflexivity|].
      split; [|split; [|split]].
      * intros t0 Hin. apply filter_In in Hin. apply rate_is_exclusive, Hin.
      * intros t0 Hin. apply filter_In in Hin. destruct Hin as [_ H85].
        destruct (rate_is 10.8 t0) eqn:E; [|reflexivity].
        rewrite (rate_is_exclusive t0 E) in H85. discriminate.
      * apply filter_lengths_exclusive. apply rate_is_exclusive.
      * destruct s as [s|].
        -- exists s. split; reflexivity.
        -- exfalso. unfold display_summary_panel in Hpanel. rewrite Hts in Hpanel.
           repeat match type of Hpanel with
                  | bind ?c _ = _ => destruct c; simpl in Hpanel; try discriminate
                  end.
Qed.

Lemma member_view_tabs_witness :
  exists view tabs,
    display_member_details (Member.with_MemberID "1070135" sample_member) = Done view
    /\ shown_transactions view = Some tabs
    /\ List.length (tab_108 tabs) = 1%nat
    /\ tab_85 tabs = []
    /\ (List.length (tab_108 tabs) + List.length (tab_85 tabs)
        <= List.length (tab_all tabs))%nat.
Proof.
  eexists. eexists.
  assert (Hview : display_member_details (Member.with_MemberID "1070135" sample_member)
                  = Done ?[view]) by (vm_compute; reflexivity).
  split; [exact Hview|].
  destruct (member_view_tabs _ _ Hview) as [_ Htabs].
  split; [reflexivity|].
  destruct (Htabs _ eq_refl) as [_ [_ [_ [_ [_ [Hlen _]]]]]].
  split; [vm_compute; reflexivity|]. split; [vm_compute; reflexivity|]. exact Hlen.
Defined.

(** ** Interest outside the two tiers *)

Lemma filter_none {A : Type} (p : A -> bool) (l : list A) :
  (forall a, In a l -> p a = false) -> filter p l = [].
Proof.
  induction l as [|a l IH]; simpl; intros H; [reflexivity|].
  rewrite (H a (or_introl eq_refl)). apply IH. intros b Hb. apply H. right. exact Hb.
Qed.

(** X15. Interest is counted only at the two tier rates. When none of a
    member's transactions has [InterestRate] equal to 10.8 or 8.5 (the key
    is missing, or holds another number), the summary reports zero interest
    at both rates and in total, whatever [InterestAmount] the records hold,
    and the final balance is the opening balance plus the recoveries. *)
Theorem summary_ignores_other_rates
    (member : Member.t) (ts : list Transaction.t) (s : summary) :
  Member.ThriftRecords member = Some ts ->
  (forall t, In t ts -> rate_is 10.8 t = false /\ rate_is 8.5 t = false) ->
  display_summary_panel member = Returned (Some s) ->
  interest_108 s = PyInt 0
  /\ interest_85 s = PyInt 0
  /\ grand_interest s = PyInt 0
  /\ sum_recovery ts = Returned (total_recovery s)
  /\ (b <- py_add (opening_thrift_balance member) (total_recovery s) ;;
      py_add b (PyInt 0)) = Returned (final_balance s).
Proof.
  intros Hts Hrates Hpanel.
  assert (Hne : ts <> []).
  { intros ->. unfold display_summary_panel in Hpanel. rewrite Hts in Hpanel.
    discriminate Hpanel. }
  rewrite (display_summary_panel_nonempty member ts Hts Hne) in Hpanel.
  unfold interest_at_rate in Hpanel.
  rewrite (filter_none (rate_is 10.8) ts) in Hpanel by (intros t Ht; apply Hrates, Ht).
  rewrite (filter_none (rate_is 8.5) ts) in Hpanel by (intros t Ht; apply Hrates, Ht).
  simpl in Hpanel.
  destruct (sum_recovery ts) as [tr|]; simpl in Hpanel; [|discriminate].
  destruct (py_add (opening_thrift_balance member) tr) as [b|] eqn:Eb;
    simpl in Hpanel; [|discriminate].
  destruct (py_add b (PyInt 0)) as [fb|] eqn:Efb; simpl in Hpanel; [|discriminate].
  inversion Hpanel; subst; simpl. rewrite Eb. simpl. rewrite Efb. repeat split.
Qed.

Lemma summary_ignores_other_rates_witness :
  interest_108 other_rate_summary = PyInt 0
  /\ grand_interest other_rate_summary = PyInt 0
  /\ final_balance other_rate_summary = PyInt 1500.
Proof.
  destruct (summary_ignores_other_rates other_rate_member
              (get_or (Member.ThriftRecords other_rate_member) []) other_rate_summary)
    as [H108 [_ [Hgrand _]]].
  - reflexivity.
  - intros t [<-|[]]. split; vm_compute; reflexivity.
  - vm_compute. reflexivity.
  - split; [exact H108|]. split; [exact Hgrand | reflexivity].
Defined.

(** ** The search page *)

Lemma expanders_length (members : list (option string * Member.t))
    (shown : list (string * member_view)) :
  expanders members = Done shown -> List.length shown = List.length members.
Proof.
  revert shown. induction members as [|[name member] rest IH]; intros shown; simpl.
  - intros H. inversion H. reflexivity.
  - destruct (expander name member) as [first|e]; simpl; [|discriminate].
    destruct (expanders rest) as [others|e]; simpl; [|discriminate].
    intros H. inversion H. simpl. rewrite (IH others eq_refl). reflexivity.
Qed.

Lemma expanders_unnamed (members : list (option string * Member.t)) :
  (exists member, In (None, member) members) ->
  exists e, expanders members = Fails e.
Proof.
  induction members as [|[name member] rest IH]; intros [m Hin]; simpl.
  - destruct Hin.
  - destruct (expander name member) as [first|e] eqn:E; simpl; [|eauto].
    destruct Hin as [H|H].
    + inversion H; subst. discriminate E.
    + destruct IH as [e ->]; [eauto|]. simpl. eauto.
Qed.

(** With the empty term every member matches. *)
Lemma search_members_all (self : ThriftManager) :
  search_members self "" =
  map (fun item => Member.with_MemberID (fst item) (snd item)) (data self).
Proof.
  rewrite search_members_filter. f_equal.
  induction (data self) as [|[member_id m] rest IH]; simpl; [reflexivity|].
  unfold search_match at 1. simpl PyStr.lower. rewrite contains_empty. simpl.
  f_equal. exact IH.
Qed.

Lemma search_listing_all (self : ThriftManager) :
  map (fun member => (Member.MemberName member, member)) (search_members self "") =
  map (fun item => (Member.MemberName (snd item),
                    Member.with_MemberID (fst item) (snd item))) (data self).
Proof. rewrite search_members_all, map_map. reflexivity. Qed.

(** X16. Which parts of the search page are drawn. With a non-empty term
    only the search results are drawn, one expander per result of
    [search_members]; with an empty term and the button not pressed only the
    list of all members is drawn; with an empty term and the button pressed
    both are drawn and they are the same list, so that every member of the
    store is shown twice. *)
Theorem search_page_sections
    (manager : ThriftManager) (search_term : string) (search_button : bool)
    (view : search_view) :
  search_and_view_page manager search_term search_button = Done view ->
  (search_term <> "" ->
     all_members view = None
     /\ exists shown, search_results view = Some shown
          /\ List.length shown = List.length (search_members manager search_term))
  /\ (search_term = "" -> search_button = false ->
        search_results view = None
        /\ exists shown, all_members view = Some shown
             /\ List.length shown = List.length (data manager))
  /\ (search_term = "" -> search_button = true ->
        search_results view = all_members view
        /\ exists shown, all_members view = Some shown
             /\ List.length shown = List.length (data manager)).
Proof.
  unfold search_and_view_page. intros Hpage. split; [|split].
  - intros Hterm. destruct search_term as [|c term]; [congruence|].
    simpl in Hpage.
    destruct (expanders _) as [shown|e] eqn:E; simpl in Hpage; [|discriminate].
    inversion Hpage; subst; simpl. split; [reflexivity|].
    exists shown. split; [reflexivity|].
    rewrite (expanders_length _ _ E). apply length_map.
  - intros -> ->. simpl in Hpage.
    destruct (expanders _) as [shown|e] eqn:E; simpl in Hpage; [|discriminate].
    inversion Hpage; subst; simpl. split; [reflexivity|].
    exists shown. split; [reflexivity|].
    rewrite (expanders_length _ _ E). apply length_map.
  - intros -> ->. simpl PyStr.truthy in Hpage. simpl orb in Hpage. simpl negb in Hpage.
    cbv iota in Hpage. rewrite search_listing_all in Hpage.
    destruct (expanders _) as [shown|e] eqn:E; simpl in Hpage; [|discriminate].
    inversion Hpage; subst; simpl. split; [reflexivity|].
    exists shown. split; [reflexivity|].
    rewrite (expanders_length _ _ E). apply length_map.
Qed.

Lemma search_page_sections_witness :
  exists view shown,
    search_and_view_page sample_manager "" true = Done view
    /\ search_results view = all_members view
    /\ all_members view = Some shown
    /\ List.length shown = 1%nat.
Proof.
  eexists.
  assert (Hpage : search_and_view_page sample_manager "" true = Done ?[view])
    by (vm_compute; reflexivity).
  destruct (search_page_sections _ _ _ _ Hpage) as [_ [_ Hboth]].
  destruct (Hboth eq_refl eq_refl) as [Hsame [shown [Hall Hlen]]].
  exists shown. split; [exact Hpage|]. split; [exact Hsame|]. split; [exact Hall | exact Hlen].
Defined.

(** X17. [search_members] reads [MemberName] with a default, the page that
    draws its results does not: when a member without the key [MemberName]
    is to be listed (the term is empty, or the term matches the member), the
    search page raises instead of drawing anything. *)
Theorem search_page_needs_names
    (manager : ThriftManager) (search_term : string) (search_button : bool) :
  (exists member_id m,
      In (member_id, m) (data manager) /\ Member.MemberName m = None
      /\ (search_term = "" \/ term_matches search_term member_id m)) ->
  exists e, search_and_view_page manager search_term search_button = Fails e.
Proof.
  intros [member_id [m [Hin [Hname Hlisted]]]]. unfold search_and_view_page.
  destruct search_term as [|c term].
  - simpl PyStr.truthy. simpl orb. simpl negb. cbv iota.
    assert (Hall : exists e,
               expanders (map (fun item => (Member.MemberName (snd item),
                                            Member.with_MemberID (fst item) (snd item)))
                              (data manager)) = Fails e).
    { apply expanders_unnamed. exists (Member.with_MemberID member_id m).
      apply in_map_iff. exists (member_id, m). simpl. rewrite Hname. split; [reflexivity|exact Hin]. }
    destruct Hall as [e Hall].
    destruct search_button.
    + rewrite search_listing_all, Hall. simpl. eauto.
    + simpl. rewrite Hall. simpl. eauto.
  - destruct Hlisted as [H|Hmatch]; [discriminate H|].
    simpl PyStr.truthy. simpl orb. cbv iota.
    destruct (expanders_unnamed
                (map (fun member => (Member.MemberName member, member))
                     (search_members manager (String c term)))) as [e ->].
    + exists (Member.with_MemberID member_id m).
      apply in_map_iff. exists (Member.with_MemberID member_id m). simpl.
      rewrite Hname. split; [reflexivity|].
      rewrite search_members_filter. apply in_map_iff. exists (member_id, m).
      split; [reflexivity|]. apply filter_In. split; [exact Hin|].
      apply search_match_iff. exact Hmatch.
    + simpl. eauto.
Qed.

Lemma search_page_needs_names_witness :
  exists e, search_and_view_page (add_member sample_manager "2002" Member.empty) "" false
            = Fails e.
Proof.
  apply search_page_needs_names. exists "2002", Member.empty.
  split; [right; left; reflexivity|]. split; [reflexivity | left; reflexivity].
Defined.

(** ** Narrowing a search *)









(** ** Analytics and the CSV export *)

Lemma py_sum_ints_from (zs : list Z) (a : Z) :
  fold_left (fun acc item => x <- acc ;; py_add x item) (map PyInt zs)
            (Returned (PyInt a))
  = Returned (PyInt (fold_left Z.add zs a)).
Proof.
  revert a. induction zs as [|z zs IH]; intros a; simpl; [reflexivity | apply IH].
Qed.

Lemma rows_inner_loop {A B : Type} (f : A -> B) (items : list A) (rows : list B) :
  fold_left (fun rows item => (rows ++ [f item])%list) items rows =
  (rows ++ map f items)%list.
Proof.
  revert rows. induction items as [|item rest IH]; intros rows; simpl.
  - rewrite app_nil_r. reflexivity.
  - rewrite IH, <- app_assoc. reflexivity.
Qed.

Lemma rows_loop {B : Type} (f : string -> Member.t -> Transaction.t -> B)
    (d : store) (rows : list B) :
  fold_left
    (fun rows item =>
       let '(member_id, member_data) := item in
       fold_left (fun rows transaction => (rows ++ [f member_id member_data transaction])%list)
                 (get_or (Member.ThriftRecords member_data) []) rows)
    d rows
  = (rows ++ flat_map (rows_of f) d)%list.
Proof.
  revert rows. induction d as [|[member_id m] rest IH]; intros rows; simpl.
  - rewrite app_nil_r. reflexivity.
  - rewrite (rows_inner_loop (f member_id m)). rewrite IH, <- app_assoc. reflexivity.
Qed.

Lemma count_rows {B : Type} (f : string -> Member.t -> Transaction.t -> B)
    (d : store) (a : Z) :
  fold_left Z.add
    (map (fun item => Z.of_nat (List.length (get_or (Member.ThriftRecords (snd item)) []))) d)
    a
  = a + Z.of_nat (List.length (flat_map (rows_of f) d)).
Proof.
  revert a. induction d as [|item rest IH]; intros a; simpl; [lia|].
  rewrite IH, length_app. unfold rows_of at 2. rewrite length_map. lia.
Qed.

Lemma all_transactions_rows (d : store) :
  all_transactions d = flat_map (rows_of analytics_row) d.
Proof. unfold all_transactions. apply (rows_loop analytics_row d []). Qed.

Lemma total_transactions_counts (d : store) :
  total_transactions d = Returned (PyInt (Z.of_nat (List.length (all_transactions d)))).
Proof.
  unfold total_transactions, py_sum.
  rewrite <- (map_map (fun item => Z.of_nat (List.length (get_or (Member.ThriftRecords (snd item)) [])))
                      PyInt).
  rewrite py_sum_ints_from, (count_rows analytics_row), all_transactions_rows.
  reflexivity.
Qed.

(** X19. The analytics page never raises, and its transaction count is the
    number of rows it analyses: an empty store gives the no-data warning, a
    store without transactions the no-transactions notice, and otherwise the
    frame has one row per stored transaction, member by member in the order
    of the store, each tagged with its owner's id and name (the empty string
    for a member without a name). *)
Theorem analytics_page_counts (manager : ThriftManager) :
  exists view,
    analytics_page manager = Returned view
    /\ match view with
       | NoDataWarning => data manager = []
       | NoTransactionsInfo total_members =>
           total_members = List.length (data manager)
           /\ data manager <> []
           /\ forall member_id m, In (member_id, m) (data manager) ->
                get_or (Member.ThriftRecords m) [] = []
       | Frame total_members total rows =>
           total_members = List.length (data manager)
           /\ total = PyInt (Z.of_nat (List.length rows))
           /\ rows <> []
           /\ rows = flat_map
                       (fun item =>
                          map (fun transaction =>
                                 {| Row.transaction := transaction;
                                    Row.MemberID := fst item;
                                    Row.MemberName :=
                                      get_or (Member.MemberName (snd item)) "" |})
                              (get_or (Member.ThriftRecords (snd item)) []))
                       (data manager)
       end.
Proof.
  unfold analytics_page.
  destruct (data manager) as [|item rest] eqn:Hdata.
  - eexists. split; reflexivity.
  - rewrite <- Hdata. rewrite total_transactions_counts. simpl bind.
    unfold py_eq.
    destruct (Z.of_nat (List.length (all_transactions (data manager))) =? 0) eqn:E.
    + eexists. split; [reflexivity|]. simpl. split; [reflexivity|].
      split; [congruence|].
      apply Z.eqb_eq in E.
      assert (Hnone : all_transactions (data manager) = []).
      { destruct (all_transactions (data manager)); [reflexivity | simpl in E; lia]. }
      rewrite all_transactions_rows in Hnone.
      intros member_id m Hin.
      assert (Hrows : rows_of analytics_row (member_id, m) = []).
      { destruct (rows_of analytics_row (member_id, m)) as [|r rs] eqn:Er; [reflexivity|].
        exfalso. assert (Hr : In r (flat_map (rows_of analytics_row) (data manager))).
        { apply in_flat_map. exists (member_id, m). split; [exact Hin|].
          rewrite Er. left. reflexivity. }
        rewrite Hnone in Hr. destruct Hr. }
      unfold rows_of in Hrows. simpl in Hrows.
      destruct (get_or (Member.ThriftRecords m) []); [reflexivity | discriminate Hrows].
    + eexists. split; [reflexivity|]. simpl. split; [reflexivity|].
      split; [reflexivity|]. split.
      * intros Hnone. rewrite Hnone in E. discriminate E.
      * apply all_transactions_rows.
Qed.

Lemma csv_data_rows (d : store) : csv_data d = flat_map (rows_of csv_row) d.
Proof. unfold csv_data. apply (rows_loop csv_row d []). Qed.

Lemma flat_map_map {A B C : Type} (g : A -> list B) (h : B -> C) (l : list A) :
  map h (flat_map g l) = flat_map (fun a => map h (g a)) l.
Proof.
  induction l as [|a l IH]; simpl; [reflexivity|]. rewrite map_app, IH. reflexivity.
Qed.

(** X20. The CSV export has one row per stored transaction: its rows carry
    the same transactions, owner ids and owner names, in the same order, as
    the rows of the analytics frame, and a member without transactions
    contributes no row. *)
Theorem csv_data_matches_analytics (d : store) :
  map CsvRow.transaction (csv_data d) = map Row.transaction (all_transactions d)
  /\ map CsvRow.MemberID (csv_data d) = map Row.MemberID (all_transactions d)
  /\ map CsvRow.MemberName (csv_data d) = map Row.MemberName (all_transactions d)
  /\ total_transactions d = Returned (PyInt (Z.of_nat (List.length (csv_data d)))).
Proof.
  rewrite csv_data_rows, all_transactions_rows.
  assert (Hlen : List.length (flat_map (rows_of csv_row) d) =
                 List.length (flat_map (rows_of analytics_row) d)).
  { induction d as [|item rest IH]; simpl; [reflexivity|].
    rewrite !length_app, IH. unfold rows_of. rewrite !length_map. reflexivity. }
  repeat split.
  - rewrite !flat_map_map. apply flat_map_ext. intros item.
    unfold rows_of. rewrite !map_map. reflexivity.
  - rewrite !flat_map_map. apply flat_map_ext. intros item.
    unfold rows_of. rewrite !map_map. reflexivity.
  - rewrite !flat_map_map. apply flat_map_ext. intros item.
    unfold rows_of. rewrite !map_map. reflexivity.
  - rewrite total_transactions_counts, all_transactions_rows, Hlen. reflexivity.
Qed.

(** ** The engine and the reload button *)

Lemma float_of_int_raises (z : Z) (e : exn) :
  PyFloat.float_of_int z = Raised e -> e = OverflowError.
Proof.
  unfold PyFloat.float_of_int.
  destruct (binary_normalize prec emax z 0 false); intros H; inversion H; reflexivity.
Qed.

(** X21. [calculate_interest] has one way to fail and two bands. It raises
    only [OverflowError], and exactly when [days_held] is too large for a
    float; otherwise the rate is 10.8 with band "10.8%" when
    [recovery_amount >= 100000] holds and 8.5 with band "8.5%" whenever it
    does not hold, negative amounts and NaN included, for which no check is
    made. *)
Theorem calculate_interest_outcomes
    (recovery_amount : float) (days_held : Z) (has_receipt : bool) :
  (exists res,
      calculate_interest recovery_amount days_held has_receipt = Returned res
      /\ PyFloat.float_of_int days_held <> Raised OverflowError
      /\ ((Interest.InterestRate res = 10.8%float
           /\ Interest.InterestBand res = "10.8%"
           /\ (100000 <=? recovery_amount)%float = true)
          \/ (Interest.InterestRate res = 8.5%float
              /\ Interest.InterestBand res = "8.5%"
              /\ (100000 <=? recovery_amount)%float = false))
      /\ (Interest.TransactionType res = "Bulk"
          \/ Interest.TransactionType res = "Monthly"))
  \/ (calculate_interest recovery_amount days_held has_receipt = Raised OverflowError
      /\ PyFloat.float_of_int days_held = Raised OverflowError).
Proof.
  destruct (PyFloat.float_of_int days_held) as [days|e] eqn:Hdays.
  - left. eexists. split; [apply (calculate_interest_returns _ _ _ _ Hdays)|].
    split; [discriminate|]. simpl. unfold tier_rate. split.
    + destruct (100000 <=? recovery_amount)%float; [left | right];
        repeat split; apply f_percent_rates.
    + destruct has_receipt; [left | right]; reflexivity.
  - right. pose proof (float_of_int_raises _ _ Hdays) as ->.
    split; [apply calculate_interest_raises; exact Hdays | reflexivity].
Qed.

(** X22. "Reload Mock Data" discards the members of the store before it
    looks for the mock file: when the file is missing or unusable, the store
    it leaves, in memory and on file, holds the sample record alone,
    whatever members it held before. *)
Theorem reload_without_mock_file (manager : ThriftManager) (mock : mock_file) :
  mock = MockMissing \/ mock = MockUnusable ->
  fst (reload_mock_data manager mock) =
  {| data_file := Document (PDict [("1070135", sample_member)]);
     data := [("1070135", sample_member)] |}.
Proof. intros [-> | ->]; reflexivity. Qed.

Lemma reload_without_mock_file_witness :
  fst (reload_mock_data (add_member sample_manager "2002" Member.empty) MockMissing) =
  sample_manager.
Proof.
  apply (reload_without_mock_file (add_member sample_manager "2002" Member.empty)).
  left. reflexivity.
Defined.
